(** * word_game: the AI-feedback endpoint of [app.py]

    A shallow embedding of [call_gemini_api], [generate_word_hints_text],
    [analyze_user_sentence_text] and the Flask handler [get_ai_feedback],
    together with the fragment of the Python runtime they rely on
    (JSON values, [dict.get], subscripting, truthiness, [==], [in],
    [str.strip], [str.join], [print], exceptions and [try]/[except]). *)

From Stdlib Require Import ZArith List String Ascii Bool Lia.
From Stdlib Require Import DecimalString.
From Stdlib Require Import Floats.SpecFloat.
Import ListNotations.

Local Open Scope Z_scope.
Set Warnings "-register-all".

(** ** Python strings

    A Python [str] is a sequence of Unicode code points.  Source literals
    are written as in [app.py] and decoded from the UTF-8 bytes of the
    file by [py_lit], which also interprets the only escape sequence the
    source uses, backslash-n. *)

Definition pystr := list N.

Module Utf8.

Definition byte_of (a : ascii) : N := N_of_ascii a.

(** Payload of a continuation byte [10xxxxxx]. *)
Definition cont (a : ascii) : N := N.land (byte_of a) 63.

Fixpoint decode (s : string) : pystr :=
  match s with
  | EmptyString => []
  | String a r =>
      let b := byte_of a in
      if (b <? 128)%N then
        match b, r with
        | 92%N, String "n"%char r' => 10%N :: decode r'
        | _, _ => b :: decode r
        end
      else if (b <? 224)%N then
        match r with
        | String c1 r' =>
            (N.shiftl (N.land b 31) 6 + cont c1)%N :: decode r'
        | _ => [b]
        end
      else if (b <? 240)%N then
        match r with
        | String c1 (String c2 r') =>
            (N.shiftl (N.land b 15) 12 + N.shiftl (cont c1) 6 + cont c2)%N
              :: decode r'
        | _ => [b]
        end
      else
        match r with
        | String c1 (String c2 (String c3 r')) =>
            (N.shiftl (N.land b 7) 18 + N.shiftl (cont c1) 12
             + N.shiftl (cont c2) 6 + cont c3)%N :: decode r'
        | _ => [b]
        end
  end.

End Utf8.

Definition py_lit (s : string) : pystr := Utf8.decode s.

Fixpoint pystr_eqb (s t : pystr) : bool :=
  match s, t with
  | [], [] => true
  | c :: s', c' :: t' => (c =? c')%N && pystr_eqb s' t'
  | _, _ => false
  end.

(** [str.isspace] for one code point: the characters [str.strip()]
    removes when called without argument. *)
Definition is_space (c : N) : bool :=
  ((9 <=? c) && (c <=? 13) || (28 <=? c) && (c <=? 32)
   || (c =? 133) || (c =? 160) || (c =? 5760)
   || (8192 <=? c) && (c <=? 8202)
   || (c =? 8232) || (c =? 8233) || (c =? 8239) || (c =? 8287)
   || (c =? 12288))%N.

Fixpoint lstrip (s : pystr) : pystr :=
  match s with
  | c :: r => if is_space c then lstrip r else s
  | [] => []
  end.

Definition py_strip (s : pystr) : pystr := rev (lstrip (rev (lstrip s))).

(** [sep.join(parts)] on strings. *)
Fixpoint join (sep : pystr) (parts : list pystr) : pystr :=
  match parts with
  | [] => []
  | [p] => p
  | p :: r => p ++ sep ++ join sep r
  end.

(** What [sys.stdout] can write.  Its encoding is UTF-8, the one in
    which the literals of [app.py] are printed; UTF-8 encodes every code
    point but the surrogates U+D800 to U+DFFF, which a str may hold (JSON
    text such as a backslash-u D800 escape decodes to one). *)
Definition is_surrogate (c : N) : bool := ((55296 <=? c) && (c <=? 57343))%N.

Definition encodable (s : pystr) : bool :=
  forallb (fun c => negb (is_surrogate c)) s.

(** [str(z)] for an [int]. *)
Definition decimal (z : Z) : pystr :=
  map N_of_ascii (list_ascii_of_string (NilZero.string_of_int (Z.to_int z))).

(** ** Exceptions and results *)

Inductive exn : Type :=
| HTTPError (status_code : Z) (text : pystr)
    (* requests.exceptions.HTTPError, with the fields of [e.response] read
       by the handler *)
| RequestException
    (* every other requests.exceptions.RequestException: ConnectionError,
       Timeout, requests' own JSONDecodeError, ... *)
| FileNotFoundError
| JSONDecodeError
| AttributeError
| TypeError
| KeyError
| IndexError
| UnicodeEncodeError
    (* raised by [print] on a text that stdout cannot encode *)
| OtherException.
    (* any other subclass of Exception (PermissionError,
       UnicodeDecodeError, werkzeug's BadRequest, ...) *)

Definition is_HTTPError (e : exn) : bool :=
  match e with HTTPError _ _ => true | _ => false end.

(** HTTPError is a subclass of RequestException. *)
Definition is_RequestException (e : exn) : bool :=
  match e with HTTPError _ _ | RequestException => true | _ => false end.

Definition is_FileNotFound_or_JSONDecode (e : exn) : bool :=
  match e with FileNotFoundError | JSONDecodeError => true | _ => false end.

Definition is_Exception (e : exn) : bool := true.

Inductive outcome (A : Type) : Type :=
| Ret (a : A)
| Raise (e : exn).
Arguments Ret {A} a.
Arguments Raise {A} e.

Definition obind {A B} (o : outcome A) (k : A -> outcome B) : outcome B :=
  match o with
  | Ret a => k a
  | Raise e => Raise e
  end.

Notation "'let*' x ':=' o 'in' k" := (obind o (fun x => k))
  (at level 10, x name, o at level 100, k at level 200).

(** ** JSON values as Python objects

    What [json.load], [request.get_json()] and [response.json()] produce:
    [None], [bool], [int], [float], [str], [list] and [dict] with string
    keys.  A dict is kept as an association list read by first match. *)

Inductive pyval : Type :=
| PNone
| PBool (b : bool)
| PInt (z : Z)
| PFloat (f : spec_float)
| PStr (s : pystr)
| PList (l : list pyval)
| PDict (d : list (pystr * pyval)).

Fixpoint lookup (k : pystr) (d : list (pystr * pyval)) : option pyval :=
  match d with
  | [] => None
  | (k', v) :: r => if pystr_eqb k k' then Some v else lookup k r
  end.

Definition has_key (k : pystr) (d : list (pystr * pyval)) : bool :=
  match lookup k d with Some _ => true | None => false end.

(** *** Numbers: [bool], [int] and [float] compare by value *)

Definition float_eqb (f g : spec_float) : bool :=
  match f, g with
  | S754_zero _, S754_zero _ => true
  | S754_infinity s, S754_infinity t => Bool.eqb s t
  | S754_finite s m e, S754_finite t n e' =>
      let lo := Z.min e e' in
      Bool.eqb s t && (Zpos m * 2 ^ (e - lo) =? Zpos n * 2 ^ (e' - lo))
  | _, _ => false
  end.

Definition int_float_eqb (z : Z) (f : spec_float) : bool :=
  match f with
  | S754_zero _ => z =? 0
  | S754_finite s m e =>
      let v := if s then Zneg m else Zpos m in
      if 0 <=? e then z =? v * 2 ^ e else z * 2 ^ (- e) =? v
  | _ => false
  end.

Inductive number : Type :=
| NumInt (z : Z)
| NumFloat (f : spec_float).

Definition as_number (v : pyval) : option number :=
  match v with
  | PBool b => Some (NumInt (if b then 1 else 0))
  | PInt z => Some (NumInt z)
  | PFloat f => Some (NumFloat f)
  | _ => None
  end.

Definition number_eqb (x y : number) : bool :=
  match x, y with
  | NumInt a, NumInt b => a =? b
  | NumInt a, NumFloat g => int_float_eqb a g
  | NumFloat f, NumInt b => int_float_eqb b f
  | NumFloat f, NumFloat g => float_eqb f g
  end.

(** *** [a == b] *)

Fixpoint py_eq (a b : pyval) {struct a} : bool :=
  match a, b with
  | PNone, PNone => true
  | PStr s, PStr t => pystr_eqb s t
  | PList la, PList lb =>
      (fix go (la lb : list pyval) {struct la} : bool :=
         match la, lb with
         | [], [] => true
         | x :: la', y :: lb' => py_eq x y && go la' lb'
         | _, _ => false
         end) la lb
  | PDict da, PDict db =>
      (fix go (da : list (pystr * pyval)) (seen : list pystr) {struct da}
         : bool :=
         match da with
         | [] => true
         | (k, v) :: da' =>
             (if existsb (pystr_eqb k) seen then true
              else match lookup k db with
                   | Some v' => py_eq v v'
                   | None => false
                   end)
             && go da' (k :: seen)
         end) da []
      && forallb (fun kv => has_key (fst kv) da) db
  | _, _ =>
      match as_number a, as_number b with
      | Some x, Some y => number_eqb x y
      | _, _ => false
      end
  end.

(** *** Truth value, [bool(v)] *)

Definition py_truthy (v : pyval) : bool :=
  match v with
  | PNone => false
  | PBool b => b
  | PInt z => negb (z =? 0)
  | PFloat (S754_zero _) => false
  | PFloat _ => true
  | PStr s => match s with [] => false | _ => true end
  | PList l => match l with [] => false | _ => true end
  | PDict d => match d with [] => false | _ => true end
  end.

(** *** Methods and operators; each raises what CPython raises *)

(** [v.get(key, default)]: only a dict has the method. *)
Definition dict_get (d : list (pystr * pyval)) (key : pystr) (default : pyval)
  : pyval :=
  match lookup key d with
  | Some x => x
  | None => default
  end.

Definition py_get (v : pyval) (key : pystr) (default : pyval)
  : outcome pyval :=
  match v with
  | PDict d => Ret (dict_get d key default)
  | _ => Raise AttributeError
  end.

(** [v.strip()]: only a str has the method. *)
Definition py_strip_method (v : pyval) : outcome pystr :=
  match v with
  | PStr s => Ret (py_strip s)
  | _ => Raise AttributeError
  end.

(** [v[key]] with a string key. *)
Definition py_getitem_key (v : pyval) (key : pystr) : outcome pyval :=
  match v with
  | PDict d => match lookup key d with Some x => Ret x | None => Raise KeyError end
  | _ => Raise TypeError
  end.

(** [v[i]] with a non-negative integer index. *)
Definition py_getitem_idx (v : pyval) (i : nat) : outcome pyval :=
  match v with
  | PList l => match nth_error l i with Some x => Ret x | None => Raise IndexError end
  | PStr s => match nth_error s i with Some c => Ret (PStr [c]) | None => Raise IndexError end
  | PDict _ => Raise KeyError
  | _ => Raise TypeError
  end.

(** [iter(v)], run to the end: the elements of a list, the characters of
    a str, the keys of a dict. *)
Definition py_iter (v : pyval) : outcome (list pyval) :=
  match v with
  | PList l => Ret l
  | PStr s => Ret (map (fun c => PStr [c]) s)
  | PDict d => Ret (map (fun kv => PStr (fst kv)) d)
  | _ => Raise TypeError
  end.

(** [len(v)]. *)
Definition py_len (v : pyval) : outcome nat :=
  match v with
  | PList l => Ret (List.length l)
  | PStr s => Ret (List.length s)
  | PDict d => Ret (List.length d)
  | _ => Raise TypeError
  end.

(** Substring test, [t in s] on two strs. *)
Fixpoint is_prefix (t s : pystr) : bool :=
  match t, s with
  | [], _ => true
  | c :: t', c' :: s' => (c =? c')%N && is_prefix t' s'
  | _ :: _, [] => false
  end.

Fixpoint is_substring (t s : pystr) : bool :=
  is_prefix t s || match s with [] => false | _ :: s' => is_substring t s' end.

(** [item in v]. *)
Definition py_contains (v item : pyval) : outcome bool :=
  match v with
  | PList l => Ret (existsb (fun x => py_eq x item) l)
  | PStr s => match item with
              | PStr t => Ret (is_substring t s)
              | _ => Raise TypeError
              end
  | PDict d => match item with
               | PStr k => Ret (has_key k d)
               | PList _ | PDict _ => Raise TypeError   (* unhashable *)
               | _ => Ret false
               end
  | _ => Raise TypeError
  end.

(** [sep.join(v)]: [v] must be iterable and yield only strs. *)
Fixpoint all_strs (l : list pyval) : outcome (list pystr) :=
  match l with
  | [] => Ret []
  | PStr s :: r => let* r' := all_strs r in Ret (s :: r')
  | _ :: _ => Raise TypeError
  end.

Definition py_join (sep : pystr) (v : pyval) : outcome pystr :=
  let* items := py_iter v in
  let* parts := all_strs items in
  Ret (join sep parts).

(** ** The world outside the program *)

(** What [requests.post] hands back when it returns: the fields and the
    method of the response object that [call_gemini_api] reads. *)
Record response : Type := {
  status_code : Z;
  text : pystr;
  json : outcome pyval          (* response.json() *)
}.

(** The arguments of one [requests.post] call. *)
Record post_call : Type := {
  url : pystr;
  headers : list (pystr * pystr);
  payload : pyval;              (* the json= argument *)
  timeout : Z
}.

Record World : Type := {
  (** [os.getenv("GEMINI_API_KEY")], read once at import. *)
  API_KEY : option pystr;
  (** The network: what a [requests.post] call does, given the calls
      made before it.  It returns a response or raises. *)
  requests_post : list post_call -> post_call -> outcome response;
  (** [open(EASY_MODE_JSON_PATH)] followed by [json.load]. *)
  load_easy_mode_json : outcome pyval;
  (** [repr] of a float, list or dict, as an f-string renders it. *)
  py_repr : pyval -> pystr;
  (** [str(e)] of a caught exception, as an f-string renders it. *)
  exn_str : exn -> pystr;
  (** The message of an exception can be printed: CPython, requests and
      werkzeug build it from their own words and from [repr] of the
      offending values, which escapes what cannot be encoded. *)
  exn_str_encodable : forall e, encodable (exn_str e) = true
}.

(** What the program changes: the lines printed and the outbound calls
    attempted, both in order. *)
Record state : Type := {
  stdout : list pystr;
  outbound : list post_call
}.

(** ** Statements: state and exceptions *)

Definition M (A : Type) : Type := state -> outcome A * state.

Definition ret {A} (a : A) : M A := fun st => (Ret a, st).

Definition bind {A B} (m : M A) (k : A -> M B) : M B :=
  fun st =>
    match m st with
    | (Ret a, st') => k a st'
    | (Raise e, st') => (Raise e, st')
    end.

Definition lift {A} (o : outcome A) : M A := fun st => (o, st).

Notation "x <- m ;; k" := (bind m (fun x => k))
  (at level 61, m at next level, right associativity).
Notation "m ;; k" := (bind m (fun _ => k))
  (at level 61, right associativity).

(** [print(line)]: the text is encoded as a whole before any of it is
    written, so a line that cannot be encoded raises and leaves stdout as
    it was. *)
Definition print (line : pystr) : M unit :=
  fun st =>
    if encodable line then
      (Ret tt, {| stdout := stdout st ++ [line]; outbound := outbound st |})
    else (Raise UnicodeEncodeError, st).

(** [try: body except C1 as e: h1 except C2 as e: h2 ...]: the first
    clause whose class matches handles the exception; with none, it
    propagates. *)
Definition clause (A : Type) : Type := (exn -> bool) * (exn -> M A).

Fixpoint handle {A} (clauses : list (clause A)) (e : exn) : M A :=
  match clauses with
  | [] => lift (Raise e)
  | (matches, h) :: rest => if matches e then h e else handle rest e
  end.

Definition try_except {A} (body : M A) (clauses : list (clause A)) : M A :=
  fun st =>
    match body st with
    | (Ret a, st') => (Ret a, st')
    | (Raise e, st') => handle clauses e st'
    end.

(** ** The program *)

Definition GEMINI_MODEL_NAME : pystr := py_lit "gemini-2.5-flash-preview-09-2025".
Definition GEMINI_API_BASE : pystr :=
  py_lit "https://generativelanguage.googleapis.com/v1beta/models/".
Definition GEMINI_API_URL : pystr :=
  GEMINI_API_BASE ++ GEMINI_MODEL_NAME ++ py_lit ":generateContent".

(** The float literal [0.5]. *)
Definition half : spec_float := S754_finite false 1 (-1).

(** An HTTP response: [jsonify(body)] has status 200; [jsonify(body), 500]
    has status 500. *)
Record http_response : Type := {
  body : pyval;
  status : Z
}.

Definition jsonify (v : pyval) : http_response := {| body := v; status := 200 |}.

Definition feedback_payload (feedback : pystr) : pyval :=
  PDict [(py_lit "feedback", PStr feedback)].

Section Program.

Variable W : World.

(** *** [call_gemini_api] *)

(** [str(v)], as [{v}] in an f-string. *)
Definition py_str (v : pyval) : pystr :=
  match v with
  | PNone => py_lit "None"
  | PBool true => py_lit "True"
  | PBool false => py_lit "False"
  | PInt z => decimal z
  | PStr s => s
  | _ => py_repr W v
  end.

Definition requests_post_call (c : post_call) : M response :=
  fun st => (requests_post W (outbound st) c,
             {| stdout := stdout st; outbound := outbound st ++ [c] |}).

(** [response.raise_for_status()]. *)
Definition raise_for_status (r : response) : M unit :=
  if (400 <=? status_code r) && (status_code r <? 600)
  then lift (Raise (HTTPError (status_code r) (text r)))
  else ret tt.

(** [API_KEY] is a str or [None]; [not API_KEY] holds for [None] and
    for the empty string. *)
Definition API_KEY_truthy : bool :=
  match API_KEY W with
  | Some (_ :: _) => true
  | _ => false
  end.

Definition API_KEY_str : pystr :=
  match API_KEY W with
  | Some key => key
  | None => py_lit "None"
  end.

Definition call_gemini_api (prompt system_instruction : pystr) : M pystr :=
  if negb API_KEY_truthy then
    print (py_lit "致命錯誤：GEMINI_API_KEY 環境變數未設定。") ;;
    ret (py_lit "回饋失敗：AI 服務未配置 (API Key 缺失)。")
  else
      let headers := [(py_lit "Content-Type", py_lit "application/json")] in
      let payload :=
        PDict [
          (py_lit "contents",
           PList [PDict [(py_lit "parts",
                          PList [PDict [(py_lit "text", PStr prompt)]])]]);
          (py_lit "systemInstruction",
           PDict [(py_lit "parts",
                   PList [PDict [(py_lit "text", PStr system_instruction)]])]);
          (py_lit "generationConfig",
           PDict [(py_lit "temperature", PFloat half)])
        ] in
      try_except
        (response <- requests_post_call
                       {| url := GEMINI_API_URL ++ py_lit "?key=" ++ API_KEY_str;
                          headers := headers;
                          payload := payload;
                          timeout := 10 |} ;;
         raise_for_status response ;;
         result <- lift (json response) ;;
         candidates <- lift (py_get result (py_lit "candidates")
                               (PList [PDict []])) ;;
         candidate <- lift (py_getitem_idx candidates 0) ;;
         content <- lift (py_get candidate (py_lit "content") (PDict [])) ;;
         parts <- lift (py_get content (py_lit "parts") (PList [PDict []])) ;;
         part <- lift (py_getitem_idx parts 0) ;;
         generated_text <- lift (py_get part (py_lit "text") PNone) ;;
         if py_truthy generated_text then
           lift (py_strip_method generated_text)
         else
           reason <- lift (py_get candidate (py_lit "finishReason") PNone) ;;
           print (py_lit "Gemini API 返回結果結構異常或內容為空。Reason: "
                  ++ py_str reason) ;;
           ret (py_lit "回饋失敗：AI 服務暫時無法提供內容。"))
        [ (is_HTTPError,
           fun e =>
             match e with
             | HTTPError code txt =>
                 print (py_lit "呼叫 Gemini API 發生 HTTP 錯誤 "
                        ++ decimal code ++ py_lit ": " ++ txt) ;;
                 ret (py_lit "回饋失敗：API 服務錯誤 (代碼: "
                      ++ decimal code
                      ++ py_lit ")。請檢查 API Key 是否有效或是否有使用限制。")
             | _ => lift (Raise AttributeError)
             end);
          (is_RequestException,
           fun e =>
             print (py_lit "呼叫 Gemini API 發生連線或超時錯誤: "
                    ++ exn_str W e) ;;
             ret (py_lit "回饋失敗：網路連線錯誤或超時。"));
          (is_Exception,
           fun e =>
             print (py_lit "處理 AI 回應時發生意外錯誤: " ++ exn_str W e) ;;
             ret (py_lit "回饋失敗：內部處理錯誤。")) ].

(** *** [generate_word_hints_text] *)

(** The loop [for i, word in enumerate(correct_answers)], from index
    [i] on, with the lines appended so far. *)
Fixpoint missing_words_loop (missing_words tips : pyval) (i : nat)
    (correct_answers : list pyval) (missing_words_prompts : list pystr)
  : outcome (list pystr) :=
  match correct_answers with
  | [] => Ret missing_words_prompts
  | word :: rest =>
      let* found := py_contains missing_words word in
      if found then
        let* n := py_len tips in
        let* tip_type :=
          (if (i <? n)%nat then py_getitem_idx tips i
           else Ret (PStr (py_lit "物件"))) in
        missing_words_loop missing_words tips (S i) rest
          (missing_words_prompts
           ++ [py_lit "單字: " ++ py_str word ++ py_lit " (類別: "
               ++ py_str tip_type ++ py_lit ")"])
      else
        missing_words_loop missing_words tips (S i) rest
          missing_words_prompts
  end.

Definition hints_system_instruction : pystr :=
  py_lit "你是一位親切且專業的英文老師，正在為圖片單字解謎遊戲提供輔助提示。你的任務是根據學生錯過的單字，"
  ++ py_lit "提供簡短、精確的中文描述提示，幫助他們推理出正確答案。請以鼓勵和友善的語氣回覆。單字的提示必須符合圖片的意境。".

Definition critique_system_instruction : pystr :=
  py_lit "你是一位嚴謹的英文老師。你的任務是分析學生的英文造句，根據句型要求和應使用的單字，"
  ++ py_lit "提供具體的修正建議。回饋必須親切、鼓勵，並且以中文書寫。".

Definition prompt_hints_text (incorrect : pystr)
    (missing_words_prompts : list pystr) : pystr :=
  py_lit "遊戲情境：學生正在玩圖片解謎遊戲，需要根據圖片內容猜出單字。圖片中還有學生猜錯的單字： "
  ++ incorrect ++ py_lit "。你的任務是提供輔助。 "
  ++ py_lit "請針對以下『遺漏的正確單字』提供**簡短的中文描述提示**，幫助他猜出正確答案。 "
  ++ py_lit "請勿透露單字本身。回覆內容必須是純文字，不需要標題，不需要額外的教學或解釋，僅提供提示內容。 "
  ++ py_lit "每個單字的提示**不超過 30 個中文字**。如果有多個單字，請務必使用**中文分號「；」**連接所有提示。 "
  ++ py_lit "需要提示的遺漏單字列表：" ++ join (py_lit ", ") missing_words_prompts
  ++ py_lit "。".

Definition critique_prompt_text (user_sentence required sentence_prompt : pystr)
  : pystr :=
  py_lit "請分析以下學生造的英文句子：\n\n"
  ++ py_lit "**使用者句子 (User Sentence):** 『" ++ user_sentence ++ py_lit "』\n"
  ++ py_lit "**本關卡要求的單字 (Required Words, total 3):** " ++ required ++ py_lit "\n"
  ++ py_lit "**句型提示 (Sentence Prompt):** 『" ++ sentence_prompt ++ py_lit "』\n\n"
  ++ py_lit "請根據以下優先順序給予修正與建議 (作為『造句回饋』):\n"
  ++ py_lit "1. 句子是否符合句型提示的要求？若不符，請指示修正。\n"
  ++ py_lit "2. 句子中是否有明顯的文法或拼寫錯誤？若有，請修正。\n"
  ++ py_lit "3. 提醒學生還沒猜對所有單字，鼓勵他們嘗試使用已猜出的單字造句。\n"
  ++ py_lit "回覆格式：請直接輸出文法建議和鼓勵，總長度限制在 50 到 100 個中文字之間。".

Definition generate_word_hints_text
    (level_info missing_words incorrect_words : pyval)
    (user_sentence : pystr) (correct_words : pyval)
    (sentence_prompt : pystr) : M pystr :=
  tips <- lift (py_get level_info (py_lit "tip") (PList [])) ;;
  correct_answers <- lift (py_get level_info (py_lit "answer") (PList [])) ;;
  answers <- lift (py_iter correct_answers) ;;
  missing_words_prompts <-
    lift (missing_words_loop missing_words tips 0 answers []) ;;
  incorrect <- lift (if py_truthy incorrect_words
                     then py_join (py_lit ", ") incorrect_words
                     else Ret (py_lit "無")) ;;
  ai_hints <- call_gemini_api (prompt_hints_text incorrect missing_words_prompts)
                hints_system_instruction ;;
  required <- lift (py_join (py_lit ", ") correct_words) ;;
  ai_critique <- call_gemini_api
                   (critique_prompt_text user_sentence required sentence_prompt)
                   critique_system_instruction ;;
  ret (py_lit "您造的句子是：" ++ user_sentence ++ py_lit "\n\n" ++ ai_hints
       ++ py_lit "\n\n" ++ ai_critique).

(** *** [analyze_user_sentence_text] *)

Definition system_instruction : pystr :=
  py_lit "你是一位嚴謹的英文寫作與文法老師。你的任務是分析學生的英文造句，提供具體的文法修正和句型使用建議。回饋必須親切、鼓勵，並且以中文書寫。".

Definition analysis_prompt_text (user_sentence required sentence_prompt : pystr)
  : pystr :=
  py_lit "請分析以下學生造的英文句子，進行嚴格的檢查和回饋：\n\n"
  ++ py_lit "1. **使用者句子 (User Sentence):** 『" ++ user_sentence ++ py_lit "』\n"
  ++ py_lit "2. **必須使用的三個單字 (Required Words):** " ++ required ++ py_lit "\n"
  ++ py_lit "3. **句型提示 (Sentence Prompt):** 『" ++ sentence_prompt ++ py_lit "』\n\n"
  ++ py_lit "請確認：\n"
  ++ py_lit "a) **【強制檢查】** 句子是否完整且準確地使用了所有『必須使用的三個單字』。\n"
  ++ py_lit "b) **【強制檢查】** 句子是否完全符合句型提示的要求。\n"
  ++ py_lit "c) 句子中是否有任何文法、詞彙或拼寫錯誤。\n\n"
  ++ py_lit "🎯 關鍵要求：回覆格式必須以『恭喜你完全答對了！』開頭，接著是文法修正建議和鼓勵。如果句子在單字使用、句型合規和文法上**完全正確**，則給予高度讚揚。總長度限制在 50 到 100 個中文字之間。請直接輸出回饋內容，不包含額外標題。".

Definition analyze_user_sentence_text (user_sentence : pystr)
    (correct_words : pyval) (sentence_prompt : pystr) : M pystr :=
  required <- lift (py_join (py_lit ", ") correct_words) ;;
  ai_critique <- call_gemini_api
                   (analysis_prompt_text user_sentence required sentence_prompt)
                   system_instruction ;;
  ret (py_lit "您造的句子是：" ++ user_sentence ++ py_lit "\n\n" ++ ai_critique).

(** *** The route [/api/ai_feedback] *)

(** [next((item for item in items if item['level'] == current_level),
    None)]: items after the first match are not looked at. *)
Fixpoint first_level_match (items : list pyval) (current_level : pyval)
  : outcome pyval :=
  match items with
  | [] => Ret PNone
  | item :: rest =>
      let* lv := py_getitem_key item (py_lit "level") in
      if py_eq lv current_level then Ret item
      else first_level_match rest current_level
  end.

Definition find_level (all_levels_data current_level : pyval)
  : outcome pyval :=
  let* items := py_iter all_levels_data in
  first_level_match items current_level.

(** [get_json] is what [request.get_json()] does for the request at
    hand: the parsed body, or the exception it raises.  A [return]
    inside the inner [try] or the branches is the left injection. *)
Definition get_ai_feedback (get_json : outcome pyval) : M http_response :=
  try_except
    (data <- lift get_json ;;
     current_level <- lift (py_get data (py_lit "level") (PInt 1)) ;;
     missing_words <- lift (py_get data (py_lit "missing_words") (PList [])) ;;
     incorrect_words <- lift (py_get data (py_lit "incorrect_words") (PList [])) ;;
     user_sentence_raw <- lift (py_get data (py_lit "user_sentence") (PStr [])) ;;
     user_sentence <- lift (py_strip_method user_sentence_raw) ;;
     sentence_prompt_raw <- lift (py_get data (py_lit "sentence_prompt") (PStr [])) ;;
     sentence_prompt <- lift (py_strip_method sentence_prompt_raw) ;;
     correct_words <- lift (py_get data (py_lit "correct_words") (PList [])) ;;
     loaded <-
       try_except
         (all_levels_data <- lift (load_easy_mode_json W) ;;
          level_info <- lift (find_level all_levels_data current_level) ;;
          if negb (py_truthy level_info) then
            ret (inl (jsonify (feedback_payload
                   (py_lit "系統錯誤：找不到關卡 " ++ py_str current_level
                    ++ py_lit " 的資料。請檢查 easy_mode.json。"))))
          else ret (inr level_info))
         [ (is_FileNotFound_or_JSONDecode,
            fun e =>
              let error_msg :=
                py_lit "回饋失敗：後端數據文件 (easy_mode.json) 遺失或格式錯誤。" in
              ret (inl (jsonify (feedback_payload error_msg)))) ] ;;
     match loaded with
     | inl early => ret early
     | inr level_info =>
         chosen <-
           (if negb (py_truthy missing_words) then
              if negb (py_truthy (PStr user_sentence)) then
                ret (inl (jsonify (feedback_payload
                       (py_lit "恭喜你完全答對了！\n\n請先輸入您的英文造句，以便 AI 進行回饋分析。"))))
              else
                feedback <- analyze_user_sentence_text user_sentence
                              correct_words sentence_prompt ;;
                ret (inr feedback)
            else
              feedback <- generate_word_hints_text level_info missing_words
                            incorrect_words user_sentence correct_words
                            sentence_prompt ;;
              ret (inr feedback)) ;;
         match chosen with
         | inl early => ret early
         | inr feedback => ret (jsonify (feedback_payload feedback))
         end
     end)
    [ (is_Exception,
       fun e =>
         print (py_lit "伺服器發生意外錯誤: " ++ exn_str W e) ;;
         ret {| body := feedback_payload
                          (py_lit "伺服器處理錯誤，請檢查後端控制台。");
                status := 500 |}) ].

End Program.

(** ** Vocabulary of the statements *)

(** A statement that always returns. *)
Definition never_raises {A} (m : M A) : Prop :=
  forall st, exists a st', m st = (Ret a, st').

(** A JSON array of strings. *)
Definition str_list (l : list pystr) : pyval := PList (map PStr l).

(** The fields of a request body [d], as [data.get] reads them. *)
Definition req_level (d : list (pystr * pyval)) : pyval :=
  dict_get d (py_lit "level") (PInt 1).
Definition req_missing_words (d : list (pystr * pyval)) : pyval :=
  dict_get d (py_lit "missing_words") (PList []).
Definition req_incorrect_words (d : list (pystr * pyval)) : pyval :=
  dict_get d (py_lit "incorrect_words") (PList []).
Definition req_correct_words (d : list (pystr * pyval)) : pyval :=
  dict_get d (py_lit "correct_words") (PList []).

(** The two text fields are strings, [us] and [sp], as the interface
    declares them (an absent field reads as the empty string). *)
Definition sentences (d : list (pystr * pyval)) (us sp : pystr) : Prop :=
  dict_get d (py_lit "user_sentence") (PStr []) = PStr us
  /\ dict_get d (py_lit "sentence_prompt") (PStr []) = PStr sp.

(** The body [d] with its two text fields replaced. *)
Definition with_sentences (d : list (pystr * pyval)) (us sp : pystr)
  : list (pystr * pyval) :=
  (py_lit "user_sentence", PStr us) :: (py_lit "sentence_prompt", PStr sp) :: d.

(** A round record of the table, as the interface declares it: a dict
    with the category hints under [tip] and the words under [answer]. *)
Definition round_record (level_info : pyval) (tips answers : list pystr) : Prop :=
  exists ld,
    level_info = PDict ld
    /\ dict_get ld (py_lit "tip") (PList []) = str_list tips
    /\ dict_get ld (py_lit "answer") (PList []) = str_list answers.

(** No entry of the table carries the level [lvl]. *)
Definition no_matching_entry (items : list pyval) (lvl : pyval) : Prop :=
  Forall (fun item =>
            exists v, py_getitem_key item (py_lit "level") = Ret v
                      /\ py_eq v lvl = false) items.

Definition reminder_text : pystr :=
  py_lit "恭喜你完全答對了！\n\n請先輸入您的英文造句，以便 AI 進行回饋分析。".

Definition blank_line : pystr := py_lit "\n\n".

(** The separator the hint prompt asks the model to use, U+FF1B. *)
Definition separator : N := 65307%N.

Section Strategies.

Variable W : World.

(** Strategy A, words incomplete: lines 230-232 of the handler. *)
Definition strategy_A (level_info missing_words incorrect_words : pyval)
    (user_sentence : pystr) (correct_words : pyval) (sentence_prompt : pystr)
  : M (http_response + pystr) :=
  feedback <- generate_word_hints_text W level_info missing_words
                incorrect_words user_sentence correct_words sentence_prompt ;;
  ret (inr feedback).

(** Strategy B, all words correct: lines 223-228 of the handler. *)
Definition strategy_B (user_sentence : pystr) (correct_words : pyval)
    (sentence_prompt : pystr) : M (http_response + pystr) :=
  if negb (py_truthy (PStr user_sentence)) then
    ret (inl (jsonify (feedback_payload reminder_text)))
  else
    feedback <- analyze_user_sentence_text W user_sentence correct_words
                  sentence_prompt ;;
    ret (inr feedback).

(** What the handler does with the strategy it picked: line 235 and the
    catch-all of lines 237-240. *)
Definition serve (m : M (http_response + pystr)) : M http_response :=
  try_except
    (chosen <- m ;;
     match chosen with
     | inl early => ret early
     | inr feedback => ret (jsonify (feedback_payload feedback))
     end)
    [ (is_Exception,
       fun e =>
         print (py_lit "伺服器發生意外錯誤: " ++ exn_str W e) ;;
         ret {| body := feedback_payload
                          (py_lit "伺服器處理錯誤，請檢查後端控制台。");
                status := 500 |}) ].

End Strategies.

(** The hint-request lines as the specification words them: one line
    [word: category] for each required word that is in the missing set,
    the category read at the word's own position, "物件" when the
    position is past the end of the category list. *)
Definition enumerate_from {A} (i : nat) (l : list A) : list (nat * A) :=
  combine (seq i (List.length l)) l.

Definition hint_line (tips : list pystr) (iw : nat * pystr) : pystr :=
  py_lit "單字: " ++ snd iw ++ py_lit " (類別: "
  ++ nth (fst iw) tips (py_lit "物件") ++ py_lit ")".

Definition hint_lines_from (i : nat) (answers tips missing : list pystr)
  : list pystr :=
  map (hint_line tips)
      (filter (fun iw => existsb (fun m => pystr_eqb m (snd iw)) missing)
              (enumerate_from i answers)).

Definition hint_request_lines (answers tips missing : list pystr)
  : list pystr :=
  hint_lines_from 0 answers tips missing.

(** The text put in the hint prompt for the wrongly guessed words. *)
Definition incorrect_text (incorrect : list pystr) : pystr :=
  match incorrect with
  | [] => py_lit "無"
  | _ :: _ => join (py_lit ", ") incorrect
  end.

(** ** Sample rounds, requests and worlds *)

Definition st0 : state := {| stdout := []; outbound := [] |}.

(** Round 1, with fewer category hints than words. *)
Definition sample_round : pyval :=
  PDict [ (py_lit "level", PInt 1);
          (py_lit "tip", str_list [py_lit "動物"; py_lit "動物"]);
          (py_lit "answer", str_list [py_lit "cat"; py_lit "dog"; py_lit "sun"]) ].

Definition sample_table : pyval := PList [sample_round].

Definition sample_body (level : Z) (missing : list pystr) (user_sentence : pystr)
  : list (pystr * pyval) :=
  [ (py_lit "level", PInt level);
    (py_lit "missing_words", str_list missing);
    (py_lit "incorrect_words", str_list [py_lit "cow"]);
    (py_lit "user_sentence", PStr user_sentence);
    (py_lit "sentence_prompt", PStr (py_lit "I see ... "));
    (py_lit "correct_words", str_list [py_lit "cat"; py_lit "dog"; py_lit "sun"]) ].

(** No credential, no network, the table on disk. *)
Definition offline_world : World :=
  {| API_KEY := None;
     requests_post := fun _ _ => Raise RequestException;
     load_easy_mode_json := Ret sample_table;
     py_repr := fun _ => py_lit "...";
     exn_str := fun _ => py_lit "connection refused";
     exn_str_encodable := fun _ => eq_refl |}.


(** A service that answers every call with the text [t]. *)
Definition answer (t : pystr) : response :=
  {| status_code := 200;
     text := [];
     json := Ret (PDict [(py_lit "candidates",
                    PList [PDict [(py_lit "content",
                      PDict [(py_lit "parts",
                        PList [PDict [(py_lit "text", PStr t)]])])]])]) |}.

Definition answering_world (t : pystr) : World :=
  {| API_KEY := Some (py_lit "k");
     requests_post := fun _ _ => Ret (answer t);
     load_easy_mode_json := Ret sample_table;
     py_repr := fun _ => py_lit "...";
     exn_str := fun _ => py_lit "connection refused";
     exn_str_encodable := fun _ => eq_refl |}.

(** Sample requests for round 1 and for a round the table lacks. *)
Definition raw_sentence : pystr := py_lit "  I see a cat  ".
Definition raw_prompt : pystr := py_lit "I see ... ".
Definition cat_dog_sun : list pystr := [py_lit "cat"; py_lit "dog"; py_lit "sun"].

Definition one_missing : list (pystr * pyval) :=
  sample_body 1 [py_lit "dog"] raw_sentence.
Definition all_found_blank : list (pystr * pyval) :=
  sample_body 1 [] (py_lit "   ").
Definition unknown_round : list (pystr * pyval) :=
  sample_body 99 [py_lit "dog"] raw_sentence.
Definition unknown_round_blank : list (pystr * pyval) :=
  sample_body 99 [] (py_lit "   ").

(** ** Vocabulary of the further properties *)

(** The call [call_gemini_api] posts for a prompt and a system
    instruction: lines 33-58. *)
Definition gemini_request (W : World) (prompt system_instruction : pystr)
  : post_call :=
  {| url := GEMINI_API_URL ++ py_lit "?key=" ++ API_KEY_str W;
     headers := [(py_lit "Content-Type", py_lit "application/json")];
     payload :=
       PDict [
         (py_lit "contents",
          PList [PDict [(py_lit "parts",
                         PList [PDict [(py_lit "text", PStr prompt)]])]]);
         (py_lit "systemInstruction",
          PDict [(py_lit "parts",
                  PList [PDict [(py_lit "text", PStr system_instruction)]])]);
         (py_lit "generationConfig",
          PDict [(py_lit "temperature", PFloat half)])
       ];
     timeout := 10 |}.

(** A status on which [raise_for_status] raises. *)
Definition error_status (code : Z) : bool := (400 <=? code) && (code <? 600).

(** [st'] is [st] after printing [lines] and posting [calls]. *)
Definition continues (st st' : state) (lines : list pystr)
    (calls : list post_call) : Prop :=
  stdout st' = stdout st ++ lines /\ outbound st' = outbound st ++ calls.

(** A statement that only appends to the state and posts at most [n]
    calls, whether it returns or raises. *)
Definition posts_at_most {A} (n : nat) (m : M A) : Prop :=
  forall st, exists lines calls,
    continues st (snd (m st)) lines calls /\ (List.length calls <= n)%nat.

(** The answer of the catch-all, lines 237-240. *)
Definition server_error : http_response :=
  {| body := feedback_payload (py_lit "伺服器處理錯誤，請檢查後端控制台。");
     status := 500 |}.

Definition printed (st : state) (line : pystr) : state :=
  {| stdout := stdout st ++ [line]; outbound := outbound st |}.

Definition posted (st : state) (c : post_call) : state :=
  {| stdout := stdout st; outbound := outbound st ++ [c] |}.

Definition is_str (v : pyval) : bool :=
  match v with PStr _ => true | _ => false end.

Definition is_dict (v : pyval) : bool :=
  match v with PDict _ => true | _ => false end.

(** A request body the handler cannot parse: [get_json] raised, or the
    body is not an object, or one of the two text fields is present and
    is not a string. *)
Definition unparsable (get_json : outcome pyval) : Prop :=
  match get_json with
  | Raise _ => True
  | Ret (PDict d) =>
      is_str (dict_get d (py_lit "user_sentence") (PStr []))
      && is_str (dict_get d (py_lit "sentence_prompt") (PStr [])) = false
  | Ret _ => True
  end.

(** The fields the handler reads, each with the default of its
    [data.get]: lines 199-205. *)
Definition request_fields : list (pystr * pyval) :=
  [ (py_lit "level", PInt 1);
    (py_lit "missing_words", PList []);
    (py_lit "incorrect_words", PList []);
    (py_lit "user_sentence", PStr []);
    (py_lit "sentence_prompt", PStr []);
    (py_lit "correct_words", PList []) ].

(** Two bodies that read alike through these fields. *)
Definition same_fields (d d' : list (pystr * pyval)) : Prop :=
  forall key default,
    In (key, default) request_fields ->
    dict_get d' key default = dict_get d key default.

(** What the handler makes of a composer's result: the answer of line
    235 when it returned, the catch-all of lines 237-240 when it
    raised. *)
Definition respond (W : World) (r : outcome pystr * state)
  : outcome http_response * state :=
  match r with
  | (Ret feedback, st) => (Ret (jsonify (feedback_payload feedback)), st)
  | (Raise e, st) =>
      (Ret server_error,
       printed st (py_lit "伺服器發生意外錯誤: " ++ exn_str W e))
  end.

(** ** Blank-line-separated blocks

    A blank line is two line feeds in a row; the blocks of a text are
    what [text.split("\n\n")] gives, cutting at each blank line from the
    left. *)
Fixpoint holds_blank_line (s : pystr) : bool :=
  match s with
  | c :: t =>
      match t with
      | c' :: _ => ((c =? 10) && (c' =? 10))%N || holds_blank_line t
      | [] => false
      end
  | [] => false
  end.

Fixpoint ends_with_newline (s : pystr) : bool :=
  match s with
  | c :: t =>
      match t with
      | _ :: _ => ends_with_newline t
      | [] => (c =? 10)%N
      end
  | [] => false
  end.

Fixpoint blocks_from (cur s : pystr) : list pystr :=
  match s with
  | c :: t =>
      match t with
      | c' :: r =>
          if ((c =? 10) && (c' =? 10))%N then cur :: blocks_from [] r
          else blocks_from (cur ++ [c]) t
      | [] => [cur ++ [c]]
      end
  | [] => [cur]
  end.

Definition blocks (s : pystr) : list pystr := blocks_from [] s.

(** ** Further sample worlds and requests *)

(** A service that answers every call with the response [r]. *)
Definition responding_world (r : response) : World :=
  {| API_KEY := Some (py_lit "k");
     requests_post := fun _ _ => Ret r;
     load_easy_mode_json := Ret sample_table;
     py_repr := fun _ => py_lit "...";
     exn_str := fun _ => py_lit "list index out of range";
     exn_str_encodable := fun _ => eq_refl |}.

(** A credential, and a network that cannot be reached. *)
Definition unreachable_world : World :=
  {| API_KEY := Some (py_lit "k");
     requests_post := fun _ _ => Raise RequestException;
     load_easy_mode_json := Ret sample_table;
     py_repr := fun _ => py_lit "...";
     exn_str := fun _ => py_lit "connection refused";
     exn_str_encodable := fun _ => eq_refl |}.

(** As [answering_world], with a table file that cannot be opened. *)
Definition unreadable_table_world : World :=
  {| API_KEY := Some (py_lit "k");
     requests_post := fun _ _ => Ret (answer (py_lit "cold"));
     load_easy_mode_json := Raise OtherException;
     py_repr := fun _ => py_lit "...";
     exn_str := fun _ => py_lit "permission denied";
     exn_str_encodable := fun _ => eq_refl |}.

Definition overloaded : response :=
  {| status_code := 503;
     text := py_lit "overloaded";
     json := Raise RequestException |}.

(** A candidate that was cut off before any content. *)
Definition blocked : response :=
  {| status_code := 200;
     text := [];
     json := Ret (PDict [(py_lit "candidates",
                    PList [PDict [(py_lit "finishReason",
                                   PStr (py_lit "SAFETY"))]])]) |}.

Definition not_an_object : response :=
  {| status_code := 200; text := []; json := Ret (PList []) |}.

Definition second_round : pyval :=
  PDict [ (py_lit "level", PInt 2);
          (py_lit "tip", str_list [py_lit "天氣"]);
          (py_lit "answer", str_list [py_lit "rain"; py_lit "snow"]) ].

Definition all_found : list (pystr * pyval) :=
  sample_body 1 [] raw_sentence.

(** [one_missing] with a field the handler does not read in front. *)
Definition one_missing_tagged : list (pystr * pyval) :=
  (py_lit "client", PStr (py_lit "web")) :: one_missing.

(** A body without [level], [incorrect_words] and [sentence_prompt]. *)
Definition no_level : list (pystr * pyval) :=
  [ (py_lit "missing_words", str_list [py_lit "dog"]);
    (py_lit "user_sentence", PStr raw_sentence);
    (py_lit "correct_words", str_list [py_lit "cat"]) ].

(** A body whose [correct_words] is a number. *)
Definition bad_correct_words (missing : list pystr) : list (pystr * pyval) :=
  [ (py_lit "level", PInt 1);
    (py_lit "missing_words", str_list missing);
    (py_lit "user_sentence", PStr raw_sentence);
    (py_lit "correct_words", PInt 3) ].

(** A body whose [user_sentence] is a number. *)
Definition numeric_sentence : list (pystr * pyval) :=
  [ (py_lit "level", PInt 1);
    (py_lit "user_sentence", PInt 5) ].

(** A 503 whose body text is the lone surrogate U+D800. *)
Definition garbled : response :=
  {| status_code := 503;
     text := [55296%N];
     json := Raise RequestException |}.

(** A candidate without content, whose finish reason is the lone
    surrogate U+D800. *)
Definition blocked_garbled : response :=
  {| status_code := 200;
     text := [];
     json := Ret (PDict [(py_lit "candidates",
                    PList [PDict [(py_lit "finishReason",
                                   PStr [55296%N])]])]) |}.

Definition two_clues : pystr := py_lit "clue one\n\nclue two".

(** The prompts of Strategy A for [one_missing] in round 1. *)
Definition sample_tips : list pystr := [py_lit "動物"; py_lit "動物"].

Definition dog_hint_prompt : pystr :=
  prompt_hints_text (incorrect_text [py_lit "cow"])
    (hint_request_lines cat_dog_sun sample_tips [py_lit "dog"]).

Definition dog_critique_prompt : pystr :=
  critique_prompt_text (py_strip raw_sentence)
    (join (py_lit ", ") cat_dog_sun) (py_strip raw_prompt).

(** The prompt of Strategy B for [all_found]. *)
Definition cat_analysis_prompt : pystr :=
  analysis_prompt_text (py_strip raw_sentence)
    (join (py_lit ", ") cat_dog_sun) (py_strip raw_prompt).

(** What the client returns and prints in [unreachable_world]. *)
Definition connection_fallback : pystr := py_lit "回饋失敗：網路連線錯誤或超時。".

Definition connection_line : pystr :=
  py_lit "呼叫 Gemini API 發生連線或超時錯誤: connection refused".

(** The state after Strategy A's two calls in [unreachable_world]. *)
Definition after_hint_call : state :=
  printed
    (posted st0
       (gemini_request unreachable_world dog_hint_prompt
          hints_system_instruction))
    connection_line.

Definition after_critique_call : state :=
  printed
    (posted after_hint_call
       (gemini_request unreachable_world dog_critique_prompt
          critique_system_instruction))
    connection_line.

(** The state after Strategy A's two calls when the service answers. *)
Definition hint_posted (W : World) : state :=
  posted st0 (gemini_request W dog_hint_prompt hints_system_instruction).

Definition critique_posted (W : World) : state :=
  posted (hint_posted W)
    (gemini_request W dog_critique_prompt critique_system_instruction).

(** * Properties *)

(** ** Reasoning about statements *)

(** One step of a run: simplify, then split on the next exception,
    result, outcome or test that decides how the run goes on. *)
Ltac run_simpl :=
  unfold bind, lift, ret, print;
  cbn [handle fst snd is_HTTPError is_RequestException is_Exception
       is_FileNotFound_or_JSONDecode stdout outbound negb].

Ltac run_step :=
  run_simpl;
  match goal with
  | |- context [is_HTTPError ?e] => is_var e; destruct e
  | |- context [is_FileNotFound_or_JSONDecode ?e] => is_var e; destruct e
  | |- context [match ?t with (_, _) => _ end] =>
      lazymatch t with
      | context [match _ with (_, _) => _ end] => fail
      | context [match _ with Ret _ => _ | Raise _ => _ end] => fail
      | context [if _ then _ else _] => fail
      | _ => destruct t as [[? | ?] ?] eqn:?
      end
  | |- context [match ?o with Ret _ => _ | Raise _ => _ end] =>
      lazymatch o with
      | context [match _ with Ret _ => _ | Raise _ => _ end] => fail
      | context [match _ with (_, _) => _ end] => fail
      | context [if _ then _ else _] => fail
      | _ => destruct o eqn:?
      end
  | |- context [if ?b then _ else _] =>
      lazymatch b with
      | context [if _ then _ else _] => fail
      | context [match _ with Ret _ => _ | Raise _ => _ end] => fail
      | context [match _ with (_, _) => _ end] => fail
      | _ => destruct b eqn:?
      end
  end.

Ltac run := repeat run_step; run_simpl.

(** ** Printing *)

Lemma encodable_app (a b : pystr) :
  encodable (a ++ b) = encodable a && encodable b.
Proof. apply forallb_app. Qed.

Lemma encodable_ascii (l : list ascii) : encodable (map N_of_ascii l) = true.
Proof.
  induction l as [| a l IH]; cbn [map encodable forallb]; [reflexivity |].
  fold (encodable (map N_of_ascii l)). rewrite IH, andb_true_r.
  unfold is_surrogate. pose proof (N_ascii_bounded a) as Hlt.
  apply negb_true_iff, andb_false_iff. left. apply N.leb_gt. lia.
Qed.

Lemma encodable_decimal (z : Z) : encodable (decimal z) = true.
Proof. apply encodable_ascii. Qed.

Lemma print_encodable (line : pystr) (st : state) :
  encodable line = true -> print line st = (Ret tt, printed st line).
Proof. intros H. unfold print, printed. now rewrite H. Qed.

(** A line made of a text of the source and of an exception's message
    can be printed. *)
Lemma encodable_exn_line (W : World) (l : pystr) (e : exn) :
  encodable l = true -> encodable (l ++ exn_str W e) = true.
Proof.
  intros H. now rewrite encodable_app, H, (exn_str_encodable W e).
Qed.

Lemma print_exn_line (W : World) (l : pystr) (e : exn) (st : state) :
  encodable l = true ->
  print (l ++ exn_str W e) st = (Ret tt, printed st (l ++ exn_str W e)).
Proof. intros H. apply print_encodable. now apply encodable_exn_line. Qed.

(** ** Strings and lists of strings *)

Lemma lstrip_blank (s : pystr) : forallb is_space s = true -> lstrip s = [].
Proof.
  induction s as [| c r IH]; cbn; [reflexivity |].
  intros H. apply andb_prop in H as [Hc Hr]. rewrite Hc. now apply IH.
Qed.

Lemma py_strip_blank (s : pystr) : forallb is_space s = true -> py_strip s = [].
Proof. intros H. unfold py_strip. now rewrite (lstrip_blank s H). Qed.

Lemma lstrip_idempotent (s : pystr) : lstrip (lstrip s) = lstrip s.
Proof.
  induction s as [| c r IH]; cbn; [reflexivity |].
  destruct (is_space c) eqn:Hc; [exact IH |]. cbn. now rewrite Hc.
Qed.

Lemma lstrip_head (s : pystr) (c : N) (t : pystr) :
  lstrip s = c :: t -> is_space c = false.
Proof.
  induction s as [| a r IH]; cbn; [discriminate |].
  destruct (is_space a) eqn:Ha; [exact IH |].
  intros H. injection H as -> _. exact Ha.
Qed.

Lemma lstrip_snoc (s : pystr) (c : N) :
  is_space c = false -> lstrip (s ++ [c]) = lstrip s ++ [c].
Proof.
  intros Hc. induction s as [| a r IH]; cbn.
  - now rewrite Hc.
  - destruct (is_space a); [exact IH | reflexivity].
Qed.

(** A stripped string neither starts nor ends with whitespace, so
    stripping it again changes nothing. *)
Lemma py_strip_idempotent (s : pystr) : py_strip (py_strip s) = py_strip s.
Proof.
  unfold py_strip.
  assert (Hhead : lstrip (rev (lstrip (rev (lstrip s))))
                  = rev (lstrip (rev (lstrip s)))).
  { destruct (lstrip s) as [| c t] eqn:Ht; [reflexivity |].
    pose proof (lstrip_head s c t Ht) as Hc.
    cbn [rev]. rewrite (lstrip_snoc (rev t) c Hc), rev_app_distr.
    cbn [rev app lstrip]. now rewrite Hc. }
  rewrite Hhead, rev_involutive, lstrip_idempotent. reflexivity.
Qed.

Lemma ends_with_newline_snoc (l : pystr) (c : N) :
  ends_with_newline (l ++ [c]) = (c =? 10)%N.
Proof.
  induction l as [| a l IH]; [reflexivity |].
  cbn [app ends_with_newline].
  destruct (l ++ [c]) eqn:E; [destruct l; discriminate | exact IH].
Qed.

Lemma ends_with_newline_app (a b : pystr) :
  b <> [] -> ends_with_newline (a ++ b) = ends_with_newline b.
Proof.
  intros Hb. induction a as [| c a IH]; [reflexivity |].
  cbn [app ends_with_newline].
  destruct (a ++ b) eqn:E; [| exact IH].
  destruct a; [cbn in E; contradiction | discriminate].
Qed.

Lemma py_strip_end (s : pystr) : ends_with_newline (py_strip s) = false.
Proof.
  unfold py_strip.
  destruct (lstrip (rev (lstrip s))) as [| c t] eqn:E; [reflexivity |].
  cbn [rev]. rewrite ends_with_newline_snoc.
  pose proof (lstrip_head _ c t E) as Hc.
  destruct (N.eqb_spec c 10) as [-> | _]; [discriminate | reflexivity].
Qed.

(** ** Blank lines and blocks *)

Lemma holds_blank_line_app (a b : pystr) :
  existsb (N.eqb 10) a = false ->
  holds_blank_line (a ++ b) = holds_blank_line b.
Proof.
  induction a as [| c a IH]; [reflexivity |].
  cbn [existsb]. intros H. apply orb_false_elim in H as [Hc Ha].
  rewrite N.eqb_sym in Hc. specialize (IH Ha).
  cbn [app holds_blank_line].
  destruct (a ++ b) as [| x l] eqn:E.
  - apply app_eq_nil in E as [_ ->]. reflexivity.
  - rewrite Hc. exact IH.
Qed.

Lemma blocks_from_step (cur : pystr) (c c' : N) (r : pystr) :
  blocks_from cur (c :: c' :: r)
  = if ((c =? 10) && (c' =? 10))%N then cur :: blocks_from [] r
    else blocks_from (cur ++ [c]) (c' :: r).
Proof. reflexivity. Qed.

Lemma blocks_from_last (s cur : pystr) :
  holds_blank_line s = false -> blocks_from cur s = [cur ++ s].
Proof.
  revert cur. induction s as [| c t IH]; intros cur H.
  - cbn. now rewrite app_nil_r.
  - destruct t as [| c' r]; [reflexivity |].
    cbn [holds_blank_line] in H. apply orb_false_elim in H as [Hcc Ht].
    rewrite blocks_from_step, Hcc, (IH (cur ++ [c]) Ht), <- app_assoc.
    reflexivity.
Qed.

(** Up to the first blank line: a text that holds none and does not end
    in a line feed is the first block. *)
Lemma blocks_from_app (a cur rest : pystr) :
  holds_blank_line a = false ->
  ends_with_newline a = false ->
  blocks_from cur (a ++ 10%N :: 10%N :: rest)
  = (cur ++ a) :: blocks_from [] rest.
Proof.
  revert cur. induction a as [| c t IH]; intros cur Hh He.
  - cbn [app]. rewrite blocks_from_step, app_nil_r. reflexivity.
  - destruct t as [| c' r].
    + cbn [ends_with_newline] in He. cbn [app].
      rewrite blocks_from_step, He, andb_false_l, blocks_from_step.
      reflexivity.
    + cbn [holds_blank_line] in Hh. apply orb_false_elim in Hh as [Hcc Ht].
      cbn [ends_with_newline] in He.
      change ((c :: c' :: r) ++ 10%N :: 10%N :: rest)
        with (c :: c' :: (r ++ 10%N :: 10%N :: rest)).
      rewrite blocks_from_step, Hcc.
      change (c' :: r ++ 10%N :: 10%N :: rest)
        with ((c' :: r) ++ 10%N :: 10%N :: rest).
      rewrite (IH (cur ++ [c]) Ht He), <- app_assoc. reflexivity.
Qed.

Lemma blocks_three (a b c : pystr) :
  holds_blank_line a = false -> ends_with_newline a = false ->
  holds_blank_line b = false -> ends_with_newline b = false ->
  holds_blank_line c = false ->
  blocks (a ++ blank_line ++ b ++ blank_line ++ c) = [a; b; c].
Proof.
  intros Ha Ea Hb Eb Hc.
  replace blank_line with [10%N; 10%N] by (vm_compute; reflexivity).
  unfold blocks. cbn [app].
  rewrite (blocks_from_app a [] _ Ha Ea), (blocks_from_app b [] _ Hb Eb).
  now rewrite (blocks_from_last c [] Hc).
Qed.

(** ** Substrings *)

Lemma is_prefix_app (t s : pystr) : is_prefix t (t ++ s) = true.
Proof.
  induction t as [| c t IH]; [reflexivity |].
  cbn [app is_prefix]. now rewrite N.eqb_refl, IH.
Qed.

Lemma is_substring_prefix (t s : pystr) :
  is_prefix t s = true -> is_substring t s = true.
Proof. intros H. destruct s; cbn [is_substring]; now rewrite H. Qed.

Lemma is_substring_head (t b : pystr) : is_substring t (t ++ b) = true.
Proof. apply is_substring_prefix, is_prefix_app. Qed.

Lemma is_substring_skip (t x s : pystr) :
  is_substring t s = true -> is_substring t (x ++ s) = true.
Proof.
  intros H. induction x as [| c x IH]; [exact H |].
  cbn [app is_substring]. rewrite IH. apply orb_true_r.
Qed.

(** A text is part of what it is concatenated into. *)
Ltac part_of_text :=
  repeat match goal with
         | |- context [py_lit ?s] => generalize (py_lit s); intro
         end;
  repeat first [ apply is_substring_head | apply is_substring_skip ].

Lemma occurs_In (c : N) (s : pystr) : existsb (N.eqb c) s = true -> In c s.
Proof.
  intros H. apply existsb_exists in H as [x [Hx Heq]].
  apply N.eqb_eq in Heq. now subst x.
Qed.

Lemma all_strs_map (l : list pystr) : all_strs (map PStr l) = Ret l.
Proof.
  induction l as [| s r IH]; cbn; [reflexivity |]. now rewrite IH.
Qed.

Lemma py_join_str_list (sep : pystr) (l : list pystr) :
  py_join sep (str_list l) = Ret (join sep l).
Proof. unfold py_join, str_list. cbn. now rewrite all_strs_map. Qed.

Lemma py_truthy_str_list (l : list pystr) :
  py_truthy (str_list l) = match l with [] => false | _ :: _ => true end.
Proof. now destruct l. Qed.

Lemma contains_str_list (miss : list pystr) (w : pystr) :
  py_contains (str_list miss) (PStr w)
  = Ret (existsb (fun m => pystr_eqb m w) miss).
Proof.
  unfold str_list. cbn. f_equal. induction miss as [| m r IH]; cbn; congruence.
Qed.

(** [tips[i] if i < len(tips) else '物件'] on a list of strings. *)
Lemma tip_lookup (tips : list pystr) (i : nat) :
  (let* n := py_len (str_list tips) in
   if (i <? n)%nat then py_getitem_idx (str_list tips) i
   else Ret (PStr (py_lit "物件")))
  = Ret (PStr (nth i tips (py_lit "物件"))).
Proof.
  unfold str_list. cbn [py_len obind py_getitem_idx]. rewrite length_map.
  destruct (Nat.ltb_spec i (List.length tips)) as [Hlt | Hge].
  - rewrite nth_error_map, (nth_error_nth' tips (py_lit "物件") Hlt).
    reflexivity.
  - now rewrite nth_overflow.
Qed.

(** ** The table lookup *)

Lemma first_level_match_none (items : list pyval) (lvl : pyval) :
  no_matching_entry items lvl -> first_level_match items lvl = Ret PNone.
Proof.
  induction 1 as [| item rest [v [Hv Hne]] _ IH]; cbn [first_level_match];
    [reflexivity |].
  rewrite Hv. cbn [obind]. now rewrite Hne.
Qed.

(** ** The client *)

(** The run of the client with a credential: the call is posted, then
    the [try] goes on from the outcome of the post. *)
Ltac client_start Hkey :=
  unfold call_gemini_api; rewrite Hkey; cbn [negb];
  match goal with
  | |- context [gemini_request ?W ?p ?si] =>
      fold (gemini_request W p si)
  end;
  unfold try_except, requests_post_call, raise_for_status, printed, posted;
  cbn [bind lift ret].

Section ClientProperties.

Variable W : World.

(** The clause for an HTTP error, on a body text that cannot be
    printed: the print of line 76 raises from inside the clause. *)
Lemma call_gemini_api_unprintable_run
    (prompt system_instruction : pystr) (st : state) (r : response) :
  API_KEY_truthy W = true ->
  requests_post W (outbound st) (gemini_request W prompt system_instruction)
  = Ret r ->
  error_status (status_code r) = true ->
  encodable (text r) = false ->
  call_gemini_api W prompt system_instruction st
  = (Raise UnicodeEncodeError,
     posted st (gemini_request W prompt system_instruction)).
Proof.
  intros Hkey Hpost Hstatus Htext. unfold error_status in Hstatus.
  client_start Hkey. rewrite Hpost, Hstatus.
  cbn [bind lift ret handle is_HTTPError].
  unfold bind, print. cbv beta iota.
  rewrite !encodable_app, Htext, !andb_false_r. reflexivity.
Qed.

(** C1: the claim fails on the code.  The clause for an HTTP error
    prints the text of the response (line 76) from inside the handler
    itself, where no clause of the [try] applies any more: when the
    service answers with a status from 400 to 599 and a body text that
    stdout cannot encode, [UnicodeEncodeError] leaves [call_gemini_api],
    after the call was posted and with nothing printed. *)
Theorem call_gemini_api_unprintable_error_body
    (prompt system_instruction : pystr) (st : state) (r : response) :
  API_KEY_truthy W = true ->
  requests_post W (outbound st) (gemini_request W prompt system_instruction)
  = Ret r ->
  error_status (status_code r) = true ->
  encodable (text r) = false ->
  call_gemini_api W prompt system_instruction st
  = (Raise UnicodeEncodeError,
     posted st (gemini_request W prompt system_instruction))
  /\ ~ never_raises (call_gemini_api W prompt system_instruction).
Proof.
  intros Hkey Hpost Hstatus Htext.
  pose proof (call_gemini_api_unprintable_run prompt system_instruction st r
                Hkey Hpost Hstatus Htext) as Hrun.
  split; [exact Hrun |].
  intros Hnever. destruct (Hnever st) as [s [st' Hret]].
  rewrite Hrun in Hret. discriminate.
Qed.

(** C5: without a credential ([API_KEY] is [None] or empty) the client
    returns the fixed fallback text at once; it prints one line and the
    list of outbound calls is left as it was. *)
Theorem call_gemini_api_not_configured (prompt system_instruction : pystr)
    (st : state) :
  API_KEY_truthy W = false ->
  call_gemini_api W prompt system_instruction st
  = (Ret (py_lit "回饋失敗：AI 服務未配置 (API Key 缺失)。"),
     {| stdout := stdout st
                  ++ [py_lit "致命錯誤：GEMINI_API_KEY 環境變數未設定。"];
        outbound := outbound st |}).
Proof.
  intros Hkey. unfold call_gemini_api. rewrite Hkey. cbn [negb].
  unfold bind.
  rewrite print_encodable by (vm_compute; reflexivity).
  reflexivity.
Qed.

(** With a credential the client posts its call first, whatever comes
    after. *)
Lemma call_gemini_api_outbound prompt system_instruction st :
  API_KEY_truthy W = true ->
  outbound (snd (call_gemini_api W prompt system_instruction st))
  = outbound st ++ [gemini_request W prompt system_instruction].
Proof.
  intros Hkey. unfold call_gemini_api. rewrite Hkey. cbn [negb].
  fold (gemini_request W prompt system_instruction).
  unfold try_except, requests_post_call, raise_for_status.
  run.
  all: reflexivity.
Qed.

(** What the client returns does not end in a line feed: it is a text
    of the source or a stripped text. *)
Lemma call_gemini_api_text_end prompt system_instruction st s st' :
  call_gemini_api W prompt system_instruction st = (Ret s, st') ->
  ends_with_newline s = false.
Proof.
  assert (H : match call_gemini_api W prompt system_instruction st with
              | (Ret t, _) => ends_with_newline t = false
              | (Raise _, _) => True
              end).
  { unfold call_gemini_api, try_except, requests_post_call, raise_for_status.
    run.
    all: try exact I.
    all: try (vm_compute; reflexivity).
    all: try match goal with
             | H : py_strip_method ?v = Ret ?t |- _ =>
                 destruct v; try discriminate H; injection H as <-;
                 apply py_strip_end
             end.
    all: rewrite app_assoc, ends_with_newline_app
           by (vm_compute; discriminate);
         vm_compute; reflexivity. }
  intros Hrun. now rewrite Hrun in H.
Qed.

End ClientProperties.

Section ComposerProperties.

Variable W : World.

Lemma missing_words_loop_from (miss tips : list pystr) :
  forall (answers : list pystr) (i : nat) (acc : list pystr),
    missing_words_loop W (str_list miss) (str_list tips) i
      (map PStr answers) acc
    = Ret (acc ++ hint_lines_from i answers tips miss).
Proof.
  induction answers as [| w rest IH]; intros i acc.
  - cbn. now rewrite app_nil_r.
  - cbn [map missing_words_loop]. rewrite contains_str_list. cbn [obind].
    unfold hint_lines_from, enumerate_from.
    cbn [List.length seq combine filter snd].
    destruct (existsb (fun m => pystr_eqb m w) miss) eqn:Hin.
    + pose proof (tip_lookup tips i) as Htip.
      destruct (py_len (str_list tips)) as [n |]; [| discriminate].
      cbn [obind] in Htip |- *. rewrite Htip. cbn [obind].
      rewrite IH. unfold hint_lines_from, enumerate_from.
      cbn [map py_str]. rewrite <- app_assoc.
      unfold hint_line at 2. cbn [fst snd]. reflexivity.
    + apply IH.
Qed.


End ComposerProperties.

Section HandlerProperties.

Variable W : World.

(** The first matching entry, when there is one, is a dict holding the
    key [level]; so [if not level_info] is the test for [None]. *)
Lemma first_level_match_found (items : list pyval) (lvl li : pyval) :
  first_level_match items lvl = Ret li ->
  li = PNone \/ py_truthy li = true.
Proof.
  induction items as [| item rest IH]; cbn [first_level_match]; intros H.
  - left. congruence.
  - destruct item as [| | | | | | ld]; cbn [py_getitem_key obind] in H;
      try discriminate.
    destruct (lookup (py_lit "level") ld) as [v |] eqn:Hv;
      cbn [obind] in H; [| discriminate].
    destruct (py_eq v lvl); [| now apply IH].
    right. injection H as <-. destruct ld; [discriminate | reflexivity].
Qed.

Lemma find_level_found (table lvl li : pyval) :
  find_level table lvl = Ret li -> li = PNone \/ py_truthy li = true.
Proof.
  unfold find_level. destruct (py_iter table) as [items | e]; cbn [obind].
  - apply first_level_match_found.
  - discriminate.
Qed.

Lemma get_ai_feedback_dispatch d us sp table li st :
  sentences d us sp ->
  load_easy_mode_json W = Ret table ->
  find_level table (req_level d) = Ret li ->
  py_truthy li = true ->
  get_ai_feedback W (Ret (PDict d)) st
  = serve W (if negb (py_truthy (req_missing_words d))
             then strategy_B W (py_strip us) (req_correct_words d) (py_strip sp)
             else strategy_A W li (req_missing_words d) (req_incorrect_words d)
                    (py_strip us) (req_correct_words d) (py_strip sp)) st.
Proof.
  intros [Hus Hsp] Hload Hfind Htruthy.
  unfold get_ai_feedback, serve, strategy_A, strategy_B, reminder_text,
    req_missing_words, req_incorrect_words, req_correct_words,
    try_except, bind, lift, ret.
  cbn [py_get].
  rewrite Hus, Hsp. cbn [py_strip_method]. rewrite Hload.
  fold (req_level d). rewrite Hfind, Htruthy. cbn [negb handle].
  reflexivity.
Qed.

(** The handler's last step, on a composer: its text is the answer;
    its exception is printed and answered with status 500. *)
Lemma serve_composer (composer : M pystr) (st : state) :
  serve W (feedback <- composer ;; ret (inr feedback)) st
  = respond W (composer st).
Proof.
  unfold serve, try_except, respond, server_error, bind, ret.
  destruct (composer st) as [[feedback | e] st']; [reflexivity |].
  cbn [handle is_Exception].
  rewrite print_exn_line by (vm_compute; reflexivity).
  reflexivity.
Qed.

Lemma round_record_truthy table lvl li tips answers :
  find_level table lvl = Ret li ->
  round_record li tips answers ->
  py_truthy li = true.
Proof.
  intros Hfind [ld [Hli _]].
  destruct (find_level_found table lvl li Hfind) as [-> | H];
    [discriminate | exact H].
Qed.

(** C2: once the body is parsed and the round is found, the branch the
    handler takes depends on the request through the emptiness of
    [missing_words] alone: with an empty list it runs the sentence
    analysis (Strategy B), with a non-empty one the hints and critique
    (Strategy A), whatever the other fields hold. *)
Theorem strategy_selected_by_missing_words d us sp miss table li st :
  sentences d us sp ->
  req_missing_words d = PList miss ->
  load_easy_mode_json W = Ret table ->
  find_level table (req_level d) = Ret li ->
  py_truthy li = true ->
  get_ai_feedback W (Ret (PDict d)) st
  = serve W
      match miss with
      | [] => strategy_B W (py_strip us) (req_correct_words d) (py_strip sp)
      | _ :: _ =>
          strategy_A W li (PList miss) (req_incorrect_words d)
            (py_strip us) (req_correct_words d) (py_strip sp)
      end st.
Proof.
  intros Hs Hmiss Hload Hfind Htruthy.
  rewrite (get_ai_feedback_dispatch d us sp table li st Hs Hload Hfind Htruthy).
  rewrite Hmiss. now destruct miss.
Qed.

(** C4, amended: for a request with an empty [missing_words] and a
    blank [user_sentence] whose round is found in the loaded table, the
    handler answers at once with the fixed reminder and status 200; the
    state is untouched, so no call to the model is made. *)
Theorem blank_sentence_short_circuit d us sp table li st :
  sentences d us sp ->
  forallb is_space us = true ->
  req_missing_words d = PList [] ->
  load_easy_mode_json W = Ret table ->
  find_level table (req_level d) = Ret li ->
  py_truthy li = true ->
  get_ai_feedback W (Ret (PDict d)) st
  = (Ret {| body := feedback_payload reminder_text; status := 200 |}, st).
Proof.
  intros Hs Hblank Hmiss Hload Hfind Htruthy.
  rewrite (get_ai_feedback_dispatch d us sp table li st Hs Hload Hfind Htruthy).
  rewrite Hmiss, (py_strip_blank us Hblank).
  unfold serve, strategy_B, try_except, bind, ret.
  cbn [py_truthy negb jsonify]. reflexivity.
Qed.

(** C6: when no entry of the table carries the requested level, the
    handler answers with status 200 and a text that names the requested
    level and says its data was not found; the state is untouched, so
    neither strategy ran. *)
Theorem round_not_found d us sp items st :
  sentences d us sp ->
  load_easy_mode_json W = Ret (PList items) ->
  no_matching_entry items (req_level d) ->
  get_ai_feedback W (Ret (PDict d)) st
  = (Ret {| body := feedback_payload
                      (py_lit "系統錯誤：找不到關卡 " ++ py_str W (req_level d)
                       ++ py_lit " 的資料。請檢查 easy_mode.json。");
            status := 200 |}, st).
Proof.
  intros [Hus Hsp] Hload Hnone.
  unfold get_ai_feedback, try_except, bind, lift, ret.
  cbn [py_get].
  rewrite Hus, Hsp. cbn [py_strip_method]. rewrite Hload.
  fold (req_level d). unfold find_level. cbn [py_iter obind].
  rewrite (first_level_match_none items (req_level d) Hnone).
  cbn [py_truthy negb jsonify handle]. reflexivity.
Qed.


End HandlerProperties.

Section ComposerRuns.

Variable W : World.

(** One run of [generate_word_hints_text] on a round record and lists
    of strings: the hint call, then the critique call, then the three
    parts put together; an exception of either call ends the run. *)
Lemma generate_word_hints_text_run li tips answers miss inc us cw sp st :
  round_record li tips answers ->
  generate_word_hints_text W li (str_list miss) (str_list inc) us
    (str_list cw) sp st
  = match call_gemini_api W
            (prompt_hints_text (incorrect_text inc)
               (hint_request_lines answers tips miss))
            hints_system_instruction st with
    | (Ret hints, st1) =>
        match call_gemini_api W
                (critique_prompt_text us (join (py_lit ", ") cw) sp)
                critique_system_instruction st1 with
        | (Ret critique, st2) =>
            (Ret (py_lit "您造的句子是：" ++ us ++ blank_line ++ hints
                  ++ blank_line ++ critique), st2)
        | (Raise e, st2) => (Raise e, st2)
        end
    | (Raise e, st1) => (Raise e, st1)
    end.
Proof.
  intros [ld [-> [Htip Hans]]].
  unfold generate_word_hints_text, blank_line.
  cbn [py_get]. rewrite Htip, Hans.
  unfold bind, lift, ret. cbv beta iota.
  change (py_iter (str_list answers)) with (Ret (map PStr answers)).
  cbv beta iota.
  rewrite (missing_words_loop_from W miss tips answers 0 []).
  cbn [app]. fold (hint_request_lines answers tips miss).
  replace (if py_truthy (str_list inc)
           then py_join (py_lit ", ") (str_list inc)
           else Ret (py_lit "無"))
    with (Ret (incorrect_text inc))
    by (destruct inc; [reflexivity | now rewrite py_join_str_list]).
  cbv beta iota.
  destruct (call_gemini_api W
              (prompt_hints_text (incorrect_text inc)
                 (hint_request_lines answers tips miss))
              hints_system_instruction st) as [[hints | e] st1];
    [| reflexivity].
  rewrite py_join_str_list. cbv beta iota.
  destruct (call_gemini_api W
              (critique_prompt_text us (join (py_lit ", ") cw) sp)
              critique_system_instruction st1) as [[critique | e] st2];
    reflexivity.
Qed.

(** One run of [analyze_user_sentence_text] on a list of strings. *)
Lemma analyze_user_sentence_text_run us cw sp st :
  analyze_user_sentence_text W us (str_list cw) sp st
  = match call_gemini_api W
            (analysis_prompt_text us (join (py_lit ", ") cw) sp)
            system_instruction st with
    | (Ret critique, st1) =>
        (Ret (py_lit "您造的句子是：" ++ us ++ blank_line ++ critique), st1)
    | (Raise e, st1) => (Raise e, st1)
    end.
Proof.
  unfold analyze_user_sentence_text, blank_line.
  rewrite py_join_str_list. unfold bind, lift, ret. cbv beta iota.
  destruct (call_gemini_api W
              (analysis_prompt_text us (join (py_lit ", ") cw) sp)
              system_instruction st) as [[critique | e] st1];
    reflexivity.
Qed.

(** The echo of a stripped sentence holds a blank line only if the
    sentence does, and does not end in a line feed. *)
Lemma echo_holds_blank_line (us : pystr) :
  holds_blank_line (py_lit "您造的句子是：" ++ us) = holds_blank_line us.
Proof. apply holds_blank_line_app. vm_compute. reflexivity. Qed.

Lemma echo_end (us : pystr) :
  ends_with_newline (py_lit "您造的句子是：" ++ py_strip us) = false.
Proof.
  destruct (py_strip us) as [| c t] eqn:E.
  - vm_compute. reflexivity.
  - rewrite ends_with_newline_app by discriminate.
    rewrite <- E. apply py_strip_end.
Qed.

End ComposerRuns.

Section StrategyAProperties.

Variable W : World.

(** C3, amended: a request with a non-empty [missing_words] that
    reaches Strategy A (its round is found, and the round and the request
    carry lists of strings), and whose two calls of the client return,
    with the model's text or with one of the fallback texts, is answered
    with status 200 and a text of three parts joined by blank lines, in
    this order: "您造的句子是：" followed by the stripped sentence, what the
    client returned for the hint prompt, what it returned for the
    critique prompt.  When none of the sentence and the two texts holds a
    blank line, these three parts are exactly the blank-line-separated
    blocks of the text. *)
Theorem strategy_A_three_blocks d us sp m miss inc cw table li tips answers
    st hints st1 critique st2 :
  sentences d us sp ->
  req_missing_words d = str_list (m :: miss) ->
  req_incorrect_words d = str_list inc ->
  req_correct_words d = str_list cw ->
  load_easy_mode_json W = Ret table ->
  find_level table (req_level d) = Ret li ->
  round_record li tips answers ->
  call_gemini_api W
    (prompt_hints_text (incorrect_text inc)
       (hint_request_lines answers tips (m :: miss)))
    hints_system_instruction st = (Ret hints, st1) ->
  call_gemini_api W
    (critique_prompt_text (py_strip us) (join (py_lit ", ") cw)
       (py_strip sp))
    critique_system_instruction st1 = (Ret critique, st2) ->
  get_ai_feedback W (Ret (PDict d)) st
  = (Ret {| body := feedback_payload
                      (py_lit "您造的句子是：" ++ py_strip us ++ blank_line
                       ++ hints ++ blank_line ++ critique);
            status := 200 |}, st2)
  /\ (holds_blank_line (py_strip us) = false ->
      holds_blank_line hints = false ->
      holds_blank_line critique = false ->
      blocks (py_lit "您造的句子是：" ++ py_strip us ++ blank_line
              ++ hints ++ blank_line ++ critique)
      = [py_lit "您造的句子是：" ++ py_strip us; hints; critique]).
Proof.
  intros Hs Hmiss Hinc Hcw Hload Hfind Hround H1 H2.
  pose proof (round_record_truthy _ _ _ _ _ Hfind Hround) as Htruthy.
  split.
  - rewrite (get_ai_feedback_dispatch W d us sp table li st Hs Hload Hfind
               Htruthy).
    rewrite Hmiss, Hinc, Hcw, py_truthy_str_list. cbn [negb].
    unfold strategy_A. rewrite serve_composer.
    rewrite (generate_word_hints_text_run W li tips answers (m :: miss) inc
               (py_strip us) cw (py_strip sp) st Hround).
    rewrite H1, H2. reflexivity.
  - intros Hu Hh Hc.
    rewrite (app_assoc (py_lit "您造的句子是：") (py_strip us)).
    apply blocks_three.
    + now rewrite echo_holds_blank_line.
    + apply echo_end.
    + exact Hh.
    + exact (call_gemini_api_text_end W _ _ _ _ _ H1).
    + exact Hc.
Qed.

Lemma separator_in_hint_prompt (incorrect : pystr) (lines : list pystr) :
  In separator (prompt_hints_text incorrect lines).
Proof.
  unfold prompt_hints_text.
  do 5 (apply in_or_app; right).
  apply in_or_app; left.
  apply occurs_In. vm_compute. reflexivity.
Qed.

(** C9, amended: the composer joins no hints itself.  Whatever the
    number of missing words, the hint prompt carries the instruction to
    join several clues with the separator; and when the two calls of the
    client return, the second part of the composer's text is the text the
    client returned for that prompt, unchanged. *)
Theorem hint_block_is_client_text li tips answers miss inc us cw sp
    st hints st1 critique st2 :
  round_record li tips answers ->
  call_gemini_api W
    (prompt_hints_text (incorrect_text inc)
       (hint_request_lines answers tips miss))
    hints_system_instruction st = (Ret hints, st1) ->
  call_gemini_api W
    (critique_prompt_text us (join (py_lit ", ") cw) sp)
    critique_system_instruction st1 = (Ret critique, st2) ->
  In separator (prompt_hints_text (incorrect_text inc)
                  (hint_request_lines answers tips miss))
  /\ generate_word_hints_text W li (str_list miss) (str_list inc) us
       (str_list cw) sp st
     = (Ret (py_lit "您造的句子是：" ++ us ++ blank_line ++ hints
             ++ blank_line ++ critique), st2).
Proof.
  intros Hround H1 H2. split; [apply separator_in_hint_prompt |].
  rewrite (generate_word_hints_text_run W li tips answers miss inc us cw sp
             st Hround).
  rewrite H1, H2. reflexivity.
Qed.

End StrategyAProperties.

(** ** Stripping *)

(** ** The two text fields *)

Lemma dict_get_with_sentences d us sp key default :
  pystr_eqb key (py_lit "user_sentence") = false ->
  pystr_eqb key (py_lit "sentence_prompt") = false ->
  dict_get (with_sentences d us sp) key default = dict_get d key default.
Proof.
  intros H1 H2. unfold with_sentences, dict_get. cbn [lookup].
  now rewrite H1, H2.
Qed.

Lemma with_sentences_sentences d us sp :
  sentences (with_sentences d us sp) us sp.
Proof.
  unfold sentences, with_sentences, dict_get. cbn [lookup].
  replace (pystr_eqb (py_lit "user_sentence") (py_lit "user_sentence"))
    with true by (vm_compute; reflexivity).
  replace (pystr_eqb (py_lit "sentence_prompt") (py_lit "user_sentence"))
    with false by (vm_compute; reflexivity).
  replace (pystr_eqb (py_lit "sentence_prompt") (py_lit "sentence_prompt"))
    with true by (vm_compute; reflexivity).
  split; reflexivity.
Qed.

Lemma with_sentences_level d us sp :
  req_level (with_sentences d us sp) = req_level d.
Proof. apply dict_get_with_sentences; vm_compute; reflexivity. Qed.

Lemma with_sentences_missing_words d us sp :
  req_missing_words (with_sentences d us sp) = req_missing_words d.
Proof. apply dict_get_with_sentences; vm_compute; reflexivity. Qed.

Lemma with_sentences_incorrect_words d us sp :
  req_incorrect_words (with_sentences d us sp) = req_incorrect_words d.
Proof. apply dict_get_with_sentences; vm_compute; reflexivity. Qed.

Lemma with_sentences_correct_words d us sp :
  req_correct_words (with_sentences d us sp) = req_correct_words d.
Proof. apply dict_get_with_sentences; vm_compute; reflexivity. Qed.

Section StrippingProperties.

Variable W : World.

(** The handler sees a body through its six fields, and the two text
    fields through [strip]. *)
Lemma get_ai_feedback_fields d d' us sp us' sp' st :
  sentences d us sp ->
  sentences d' us' sp' ->
  req_level d' = req_level d ->
  req_missing_words d' = req_missing_words d ->
  req_incorrect_words d' = req_incorrect_words d ->
  req_correct_words d' = req_correct_words d ->
  py_strip us' = py_strip us ->
  py_strip sp' = py_strip sp ->
  get_ai_feedback W (Ret (PDict d')) st = get_ai_feedback W (Ret (PDict d)) st.
Proof.
  intros [Hus Hsp] [Hus' Hsp'] Hlevel Hmiss Hinc Hcw Hu Hp.
  unfold get_ai_feedback, try_except.
  cbn [py_get bind lift ret].
  fold (req_level d) (req_missing_words d) (req_incorrect_words d)
    (req_correct_words d).
  fold (req_level d') (req_missing_words d') (req_incorrect_words d')
    (req_correct_words d').
  rewrite Hlevel, Hmiss, Hinc, Hcw, Hus, Hsp, Hus', Hsp'.
  cbn [py_strip_method]. rewrite Hu, Hp. reflexivity.
Qed.

(** C10: the handler uses [user_sentence] and [sentence_prompt] only
    after [strip].  Once the body is parsed and the round is found, the
    answer is made from the stripped values: the reminder when the
    stripped sentence is empty and no word is missing, and otherwise what
    the composer of the strategy gives on the stripped sentence and the
    stripped pattern.  The composers echo the sentence they are given
    after "您造的句子是：" and put it, with the pattern, into the prompt they
    hand to the client, so the echoed block and the prompts hold the
    stripped values.  Hence bodies that differ in the two fields by
    leading and trailing whitespace alone get the same answer and leave
    the same state, and a sentence of whitespace alone is read as the
    empty one. *)
Theorem sentences_read_stripped d us sp miss inc cw table li tips answers st :
  sentences d us sp ->
  req_missing_words d = str_list miss ->
  req_incorrect_words d = str_list inc ->
  req_correct_words d = str_list cw ->
  load_easy_mode_json W = Ret table ->
  find_level table (req_level d) = Ret li ->
  round_record li tips answers ->
  get_ai_feedback W (Ret (PDict d)) st
  = match miss, py_strip us with
    | [], [] => (Ret (jsonify (feedback_payload reminder_text)), st)
    | [], _ :: _ =>
        respond W (analyze_user_sentence_text W (py_strip us) (str_list cw)
                     (py_strip sp) st)
    | _ :: _, _ =>
        respond W (generate_word_hints_text W li (str_list miss)
                     (str_list inc) (py_strip us) (str_list cw)
                     (py_strip sp) st)
    end
  /\ (forall u p st0,
        analyze_user_sentence_text W u (str_list cw) p st0
        = match call_gemini_api W
                  (analysis_prompt_text u (join (py_lit ", ") cw) p)
                  system_instruction st0 with
          | (Ret critique, st1) =>
              (Ret (py_lit "您造的句子是：" ++ u ++ blank_line ++ critique), st1)
          | (Raise e, st1) => (Raise e, st1)
          end)
  /\ (forall u p st0,
        generate_word_hints_text W li (str_list miss) (str_list inc) u
          (str_list cw) p st0
        = match call_gemini_api W
                  (prompt_hints_text (incorrect_text inc)
                     (hint_request_lines answers tips miss))
                  hints_system_instruction st0 with
          | (Ret hints, st1) =>
              match call_gemini_api W
                      (critique_prompt_text u (join (py_lit ", ") cw) p)
                      critique_system_instruction st1 with
              | (Ret critique, st2) =>
                  (Ret (py_lit "您造的句子是：" ++ u ++ blank_line ++ hints
                        ++ blank_line ++ critique), st2)
              | (Raise e, st2) => (Raise e, st2)
              end
          | (Raise e, st1) => (Raise e, st1)
          end)
  /\ (forall u r p,
        is_substring u (analysis_prompt_text u r p) = true
        /\ is_substring p (analysis_prompt_text u r p) = true
        /\ is_substring u (critique_prompt_text u r p) = true
        /\ is_substring p (critique_prompt_text u r p) = true)
  /\ (forall us' sp',
        py_strip us' = py_strip us ->
        py_strip sp' = py_strip sp ->
        get_ai_feedback W (Ret (PDict (with_sentences d us' sp'))) st
        = get_ai_feedback W (Ret (PDict d)) st)
  /\ (forallb is_space us = true -> py_strip us = []).
Proof.
  intros Hs Hmiss Hinc Hcw Hload Hfind Hround.
  pose proof (round_record_truthy _ _ _ _ _ Hfind Hround) as Htruthy.
  split; [| split; [| split; [| split; [| split]]]].
  - rewrite (get_ai_feedback_dispatch W d us sp table li st Hs Hload Hfind
               Htruthy).
    rewrite Hmiss, Hinc, Hcw, py_truthy_str_list.
    destruct miss as [| m miss]; cbn [negb].
    + unfold strategy_B.
      destruct (py_strip us) as [| c t]; cbn [py_truthy negb].
      * unfold serve, try_except, bind, ret. reflexivity.
      * apply serve_composer.
    + unfold strategy_A. apply serve_composer.
  - intros u p st0. apply analyze_user_sentence_text_run.
  - intros u p st0. now apply generate_word_hints_text_run.
  - intros u r p. unfold analysis_prompt_text, critique_prompt_text.
    split; [| split; [| split]]; part_of_text.
  - intros us' sp' Hus' Hsp'.
    apply (get_ai_feedback_fields d _ us sp us' sp' st Hs
             (with_sentences_sentences d us' sp')
             (with_sentences_level d us' sp')
             (with_sentences_missing_words d us' sp')
             (with_sentences_incorrect_words d us' sp')
             (with_sentences_correct_words d us' sp') Hus' Hsp').
  - apply py_strip_blank.
Qed.

End StrippingProperties.

(** * The theorems at sample inputs *)

Lemma call_gemini_api_unprintable_error_body_witness :
  API_KEY_truthy (responding_world garbled) = true
  /\ requests_post (responding_world garbled) (outbound st0)
       (gemini_request (responding_world garbled) (py_lit "hello")
          (py_lit "be kind"))
     = Ret garbled
  /\ error_status (status_code garbled) = true
  /\ encodable (text garbled) = false
  /\ call_gemini_api (responding_world garbled) (py_lit "hello")
       (py_lit "be kind") st0
     = (Raise UnicodeEncodeError,
        posted st0
          (gemini_request (responding_world garbled) (py_lit "hello")
             (py_lit "be kind")))
  /\ ~ never_raises
         (call_gemini_api (responding_world garbled) (py_lit "hello")
            (py_lit "be kind")).
Proof.
  split; [reflexivity |].
  split; [reflexivity |].
  split; [reflexivity |].
  split; [reflexivity |].
  apply (call_gemini_api_unprintable_error_body (responding_world garbled)
           (py_lit "hello") (py_lit "be kind") st0 garbled).
  - reflexivity.
  - reflexivity.
  - reflexivity.
  - reflexivity.
Defined.

Lemma call_gemini_api_not_configured_witness :
  API_KEY_truthy offline_world = false
  /\ call_gemini_api offline_world (py_lit "hello") (py_lit "be kind") st0
     = (Ret (py_lit "回饋失敗：AI 服務未配置 (API Key 缺失)。"),
        {| stdout := stdout st0
                     ++ [py_lit "致命錯誤：GEMINI_API_KEY 環境變數未設定。"];
           outbound := outbound st0 |}).
Proof.
  split; [reflexivity |].
  apply (call_gemini_api_not_configured offline_world). reflexivity.
Defined.

Lemma one_missing_sentences : sentences one_missing raw_sentence raw_prompt.
Proof. split; vm_compute; reflexivity. Qed.

Lemma sample_round_record :
  round_record sample_round [py_lit "動物"; py_lit "動物"] cat_dog_sun.
Proof.
  eexists. split; [reflexivity |]. split; vm_compute; reflexivity.
Qed.

Lemma strategy_selected_by_missing_words_witness :
  sentences one_missing raw_sentence raw_prompt
  /\ req_missing_words one_missing = PList [PStr (py_lit "dog")]
  /\ load_easy_mode_json offline_world = Ret sample_table
  /\ find_level sample_table (req_level one_missing) = Ret sample_round
  /\ py_truthy sample_round = true
  /\ get_ai_feedback offline_world (Ret (PDict one_missing)) st0
     = serve offline_world
         match [PStr (py_lit "dog")] with
         | [] => strategy_B offline_world (py_strip raw_sentence)
                   (req_correct_words one_missing) (py_strip raw_prompt)
         | _ :: _ =>
             strategy_A offline_world sample_round (PList [PStr (py_lit "dog")])
               (req_incorrect_words one_missing) (py_strip raw_sentence)
               (req_correct_words one_missing) (py_strip raw_prompt)
         end st0.
Proof.
  split; [exact one_missing_sentences |].
  split; [vm_compute; reflexivity |].
  split; [reflexivity |].
  split; [vm_compute; reflexivity |].
  split; [reflexivity |].
  apply (strategy_selected_by_missing_words offline_world one_missing
           raw_sentence raw_prompt [PStr (py_lit "dog")] sample_table
           sample_round st0 one_missing_sentences).
  - vm_compute; reflexivity.
  - reflexivity.
  - vm_compute; reflexivity.
  - reflexivity.
Defined.

Lemma strategy_A_three_blocks_witness :
  sentences one_missing raw_sentence raw_prompt
  /\ req_missing_words one_missing = str_list [py_lit "dog"]
  /\ round_record sample_round sample_tips cat_dog_sun
  /\ call_gemini_api unreachable_world dog_hint_prompt
       hints_system_instruction st0
     = (Ret connection_fallback, after_hint_call)
  /\ call_gemini_api unreachable_world dog_critique_prompt
       critique_system_instruction after_hint_call
     = (Ret connection_fallback, after_critique_call)
  /\ holds_blank_line (py_strip raw_sentence) = false
  /\ holds_blank_line connection_fallback = false
  /\ get_ai_feedback unreachable_world (Ret (PDict one_missing)) st0
     = (Ret {| body := feedback_payload
                         (py_lit "您造的句子是：" ++ py_strip raw_sentence
                          ++ blank_line ++ connection_fallback ++ blank_line
                          ++ connection_fallback);
               status := 200 |}, after_critique_call)
  /\ blocks (py_lit "您造的句子是：" ++ py_strip raw_sentence ++ blank_line
             ++ connection_fallback ++ blank_line ++ connection_fallback)
     = [py_lit "您造的句子是：" ++ py_strip raw_sentence;
        connection_fallback; connection_fallback].
Proof.
  split; [exact one_missing_sentences |].
  split; [vm_compute; reflexivity |].
  split; [exact sample_round_record |].
  split; [vm_compute; reflexivity |].
  split; [vm_compute; reflexivity |].
  split; [vm_compute; reflexivity |].
  split; [vm_compute; reflexivity |].
  destruct (strategy_A_three_blocks unreachable_world one_missing
              raw_sentence raw_prompt (py_lit "dog") [] [py_lit "cow"]
              cat_dog_sun sample_table sample_round sample_tips cat_dog_sun
              st0 connection_fallback after_hint_call connection_fallback
              after_critique_call one_missing_sentences)
    as [Hanswer Hblocks].
  - vm_compute; reflexivity.
  - vm_compute; reflexivity.
  - vm_compute; reflexivity.
  - reflexivity.
  - vm_compute; reflexivity.
  - exact sample_round_record.
  - vm_compute; reflexivity.
  - vm_compute; reflexivity.
  - split; [exact Hanswer |].
    apply Hblocks; vm_compute; reflexivity.
Defined.

(** C3, as stated, fails: when the service answers the two calls with a
    text of two paragraphs, the feedback has five blank-line-separated
    blocks. *)
Lemma strategy_A_five_blocks_counterexample :
  req_missing_words one_missing = str_list [py_lit "dog"]
  /\ fst (get_ai_feedback (answering_world two_clues)
            (Ret (PDict one_missing)) st0)
     = Ret {| body := feedback_payload
                        (py_lit "您造的句子是：I see a cat\n\nclue one\n\nclue two\n\nclue one\n\nclue two");
              status := 200 |}
  /\ blocks (py_lit "您造的句子是：I see a cat\n\nclue one\n\nclue two\n\nclue one\n\nclue two")
     = [py_lit "您造的句子是：I see a cat"; py_lit "clue one";
        py_lit "clue two"; py_lit "clue one"; py_lit "clue two"]
  /\ List.length
       (blocks (py_lit "您造的句子是：I see a cat\n\nclue one\n\nclue two\n\nclue one\n\nclue two"))
     = 5%nat.
Proof.
  split; [vm_compute; reflexivity |].
  split; [vm_compute; reflexivity |].
  split; vm_compute; reflexivity.
Qed.

Lemma all_found_blank_sentences :
  sentences all_found_blank (py_lit "   ") raw_prompt.
Proof. split; vm_compute; reflexivity. Qed.

Lemma blank_sentence_short_circuit_witness :
  sentences all_found_blank (py_lit "   ") raw_prompt
  /\ forallb is_space (py_lit "   ") = true
  /\ req_missing_words all_found_blank = PList []
  /\ load_easy_mode_json (answering_world (py_lit "cold")) = Ret sample_table
  /\ find_level sample_table (req_level all_found_blank) = Ret sample_round
  /\ py_truthy sample_round = true
  /\ get_ai_feedback (answering_world (py_lit "cold"))
       (Ret (PDict all_found_blank)) st0
     = (Ret {| body := feedback_payload reminder_text; status := 200 |}, st0).
Proof.
  split; [exact all_found_blank_sentences |].
  split; [vm_compute; reflexivity |].
  split; [vm_compute; reflexivity |].
  split; [reflexivity |].
  split; [vm_compute; reflexivity |].
  split; [reflexivity |].
  apply (blank_sentence_short_circuit (answering_world (py_lit "cold"))
           all_found_blank (py_lit "   ") raw_prompt sample_table sample_round
           st0 all_found_blank_sentences).
  - vm_compute; reflexivity.
  - vm_compute; reflexivity.
  - reflexivity.
  - vm_compute; reflexivity.
  - reflexivity.
Defined.

(** C4, as stated, fails: a request with an empty [missing_words] and a
    blank sentence for a round the table lacks gets the "not found" text,
    not the reminder. *)
Lemma blank_sentence_unknown_round_counterexample :
  req_missing_words unknown_round_blank = PList []
  /\ sentences unknown_round_blank (py_lit "   ") raw_prompt
  /\ forallb is_space (py_lit "   ") = true
  /\ get_ai_feedback offline_world (Ret (PDict unknown_round_blank)) st0
     = (Ret {| body := feedback_payload
                         (py_lit "系統錯誤：找不到關卡 99 的資料。請檢查 easy_mode.json。");
               status := 200 |}, st0)
  /\ pystr_eqb (py_lit "系統錯誤：找不到關卡 99 的資料。請檢查 easy_mode.json。")
       reminder_text = false.
Proof.
  split; [vm_compute; reflexivity |].
  split; [split; vm_compute; reflexivity |].
  split; [vm_compute; reflexivity |].
  split; vm_compute; reflexivity.
Qed.

Lemma unknown_round_sentences : sentences unknown_round raw_sentence raw_prompt.
Proof. split; vm_compute; reflexivity. Qed.

Lemma unknown_round_no_entry :
  no_matching_entry [sample_round] (req_level unknown_round).
Proof.
  constructor; [| constructor].
  exists (PInt 1). split; vm_compute; reflexivity.
Qed.

Lemma round_not_found_witness :
  sentences unknown_round raw_sentence raw_prompt
  /\ load_easy_mode_json offline_world = Ret (PList [sample_round])
  /\ no_matching_entry [sample_round] (req_level unknown_round)
  /\ get_ai_feedback offline_world (Ret (PDict unknown_round)) st0
     = (Ret {| body := feedback_payload
                         (py_lit "系統錯誤：找不到關卡 "
                          ++ py_str offline_world (req_level unknown_round)
                          ++ py_lit " 的資料。請檢查 easy_mode.json。");
               status := 200 |}, st0).
Proof.
  split; [exact unknown_round_sentences |].
  split; [reflexivity |].
  split; [exact unknown_round_no_entry |].
  apply (round_not_found offline_world unknown_round raw_sentence raw_prompt
           [sample_round] st0 unknown_round_sentences).
  - reflexivity.
  - exact unknown_round_no_entry.
Defined.


Lemma hint_block_is_client_text_witness :
  round_record sample_round sample_tips cat_dog_sun
  /\ call_gemini_api (answering_world (py_lit "cold")) dog_hint_prompt
       hints_system_instruction st0
     = (Ret (py_lit "cold"), hint_posted (answering_world (py_lit "cold")))
  /\ call_gemini_api (answering_world (py_lit "cold")) dog_critique_prompt
       critique_system_instruction
       (hint_posted (answering_world (py_lit "cold")))
     = (Ret (py_lit "cold"),
        critique_posted (answering_world (py_lit "cold")))
  /\ In separator dog_hint_prompt
  /\ generate_word_hints_text (answering_world (py_lit "cold"))
       sample_round (str_list [py_lit "dog"]) (str_list [py_lit "cow"])
       (py_strip raw_sentence) (str_list cat_dog_sun) (py_strip raw_prompt)
       st0
     = (Ret (py_lit "您造的句子是：" ++ py_strip raw_sentence ++ blank_line
             ++ py_lit "cold" ++ blank_line ++ py_lit "cold"),
        critique_posted (answering_world (py_lit "cold"))).
Proof.
  split; [exact sample_round_record |].
  split; [vm_compute; reflexivity |].
  split; [vm_compute; reflexivity |].
  apply (hint_block_is_client_text (answering_world (py_lit "cold"))
           sample_round sample_tips cat_dog_sun [py_lit "dog"]
           [py_lit "cow"] (py_strip raw_sentence) cat_dog_sun
           (py_strip raw_prompt) st0 (py_lit "cold")
           (hint_posted (answering_world (py_lit "cold"))) (py_lit "cold")
           (critique_posted (answering_world (py_lit "cold")))
           sample_round_record).
  - vm_compute; reflexivity.
  - vm_compute; reflexivity.
Defined.

(** C9, as stated, fails in both directions: with three missing words
    and a service that answers "cold", no separator appears in the
    feedback; with one missing word and a service whose answer holds the
    separator, the separator appears in the feedback. *)
Lemma hints_joined_by_separator_counterexample :
  fst (generate_word_hints_text (answering_world (py_lit "cold"))
         sample_round (str_list cat_dog_sun) (str_list [py_lit "cow"])
         (py_lit "I see a cat") (str_list cat_dog_sun) (py_lit "I see ...")
         st0)
  = Ret (py_lit "您造的句子是：I see a cat\n\ncold\n\ncold")
  /\ existsb (N.eqb separator)
       (py_lit "您造的句子是：I see a cat\n\ncold\n\ncold") = false
  /\ fst (generate_word_hints_text
            (answering_world (py_lit "毛茸茸；會喵喵叫"))
            sample_round (str_list [py_lit "cat"]) (str_list [py_lit "cow"])
            (py_lit "I see a cat") (str_list cat_dog_sun) (py_lit "I see ...")
            st0)
     = Ret (py_lit "您造的句子是：I see a cat\n\n毛茸茸；會喵喵叫\n\n毛茸茸；會喵喵叫")
  /\ existsb (N.eqb separator)
       (py_lit "您造的句子是：I see a cat\n\n毛茸茸；會喵喵叫\n\n毛茸茸；會喵喵叫")
     = true.
Proof.
  split; [vm_compute; reflexivity |].
  split; [vm_compute; reflexivity |].
  split; vm_compute; reflexivity.
Qed.

Lemma sentences_read_stripped_witness :
  sentences one_missing raw_sentence raw_prompt
  /\ py_strip raw_sentence = py_lit "I see a cat"
  /\ py_strip raw_prompt = py_lit "I see ..."
  /\ get_ai_feedback (answering_world (py_lit "cold"))
       (Ret (PDict one_missing)) st0
     = respond (answering_world (py_lit "cold"))
         (generate_word_hints_text (answering_world (py_lit "cold"))
            sample_round (str_list [py_lit "dog"]) (str_list [py_lit "cow"])
            (py_strip raw_sentence) (str_list cat_dog_sun)
            (py_strip raw_prompt) st0)
  /\ get_ai_feedback (answering_world (py_lit "cold"))
       (Ret (PDict (with_sentences one_missing (py_lit "I see a cat   ")
                      (py_lit "   I see ...")))) st0
     = get_ai_feedback (answering_world (py_lit "cold"))
         (Ret (PDict one_missing)) st0.
Proof.
  split; [exact one_missing_sentences |].
  split; [vm_compute; reflexivity |].
  split; [vm_compute; reflexivity |].
  destruct (sentences_read_stripped (answering_world (py_lit "cold"))
              one_missing raw_sentence raw_prompt [py_lit "dog"]
              [py_lit "cow"] cat_dog_sun sample_table sample_round
              sample_tips cat_dog_sun st0 one_missing_sentences)
    as [Hanswer [_ [_ [_ [Hsame _]]]]].
  - vm_compute; reflexivity.
  - vm_compute; reflexivity.
  - vm_compute; reflexivity.
  - reflexivity.
  - vm_compute; reflexivity.
  - exact sample_round_record.
  - split; [exact Hanswer |].
    apply Hsame; vm_compute; reflexivity.
Defined.

(** * Further properties of the client, the composer and the handler *)

Section ClientPaths.

Variable W : World.


(** X2: a response with a status from 400 to 599 whose body text can
    be printed gives the fallback text that names the status code; the
    status and the body text are printed. *)
Theorem call_gemini_api_http_error (prompt system_instruction : pystr)
    (st : state) (r : response) :
  API_KEY_truthy W = true ->
  requests_post W (outbound st) (gemini_request W prompt system_instruction)
  = Ret r ->
  error_status (status_code r) = true ->
  encodable (text r) = true ->
  call_gemini_api W prompt system_instruction st
  = (Ret (py_lit "回饋失敗：API 服務錯誤 (代碼: " ++ decimal (status_code r)
          ++ py_lit ")。請檢查 API Key 是否有效或是否有使用限制。"),
     printed (posted st (gemini_request W prompt system_instruction))
       (py_lit "呼叫 Gemini API 發生 HTTP 錯誤 " ++ decimal (status_code r)
        ++ py_lit ": " ++ text r)).
Proof.
  intros Hkey Hpost Hstatus Htext. unfold error_status in Hstatus.
  client_start Hkey. rewrite Hpost, Hstatus.
  cbn [bind lift ret handle is_HTTPError].
  unfold bind, print. cbv beta iota.
  rewrite !encodable_app, Htext, encodable_decimal.
  replace (encodable (py_lit "呼叫 Gemini API 發生 HTTP 錯誤 ")) with true
    by (vm_compute; reflexivity).
  replace (encodable (py_lit ": ")) with true by (vm_compute; reflexivity).
  reflexivity.
Qed.

(** X3: a connection error or timeout of the call, and equally a body
    that [response.json()] rejects with requests' own exception, give the
    connectivity fallback text. *)
Theorem call_gemini_api_connection_error (prompt system_instruction : pystr)
    (st : state) :
  API_KEY_truthy W = true ->
  requests_post W (outbound st) (gemini_request W prompt system_instruction)
  = Raise RequestException
  \/ (exists r,
        requests_post W (outbound st)
          (gemini_request W prompt system_instruction) = Ret r
        /\ error_status (status_code r) = false
        /\ json r = Raise RequestException) ->
  call_gemini_api W prompt system_instruction st
  = (Ret (py_lit "回饋失敗：網路連線錯誤或超時。"),
     printed (posted st (gemini_request W prompt system_instruction))
       (py_lit "呼叫 Gemini API 發生連線或超時錯誤: "
        ++ exn_str W RequestException)).
Proof.
  intros Hkey [Hpost | [r [Hpost [Hstatus Hjson]]]];
    [| unfold error_status in Hstatus]; client_start Hkey; rewrite Hpost.
  - cbn [handle is_HTTPError is_RequestException]. unfold bind.
    rewrite print_exn_line by (vm_compute; reflexivity). reflexivity.
  - rewrite Hstatus. cbn [bind lift ret]. rewrite Hjson.
    cbn [handle is_HTTPError is_RequestException]. unfold bind.
    rewrite print_exn_line by (vm_compute; reflexivity). reflexivity.
Qed.

(** X4: on a good status, when the first part of the first candidate
    carries a non-empty text, the client returns that text stripped and
    prints nothing. *)
Theorem call_gemini_api_success (prompt system_instruction : pystr)
    (st : state) (r : response) d c cs ct pt ps ch t :
  API_KEY_truthy W = true ->
  requests_post W (outbound st) (gemini_request W prompt system_instruction)
  = Ret r ->
  error_status (status_code r) = false ->
  json r = Ret (PDict d) ->
  dict_get d (py_lit "candidates") (PList [PDict []]) = PList (PDict c :: cs) ->
  dict_get c (py_lit "content") (PDict []) = PDict ct ->
  dict_get ct (py_lit "parts") (PList [PDict []]) = PList (PDict pt :: ps) ->
  dict_get pt (py_lit "text") PNone = PStr (ch :: t) ->
  call_gemini_api W prompt system_instruction st
  = (Ret (py_strip (ch :: t)),
     posted st (gemini_request W prompt system_instruction)).
Proof.
  intros Hkey Hpost Hstatus Hjson Hcands Hcontent Hparts Htext.
  unfold error_status in Hstatus.
  client_start Hkey. rewrite Hpost, Hstatus. cbn [bind lift ret].
  rewrite Hjson. cbn [py_get]. rewrite Hcands. cbn [py_getitem_idx nth_error py_get].
  rewrite Hcontent. cbn [py_get]. rewrite Hparts.
  cbn [py_getitem_idx nth_error py_get]. rewrite Htext. reflexivity.
Qed.

(** X5: on a good status, when the text of the first part is absent,
    [None] or empty (also when the body has no candidates at all), the
    client prints the finish reason of the candidate and returns the
    unavailability text.  When the finish reason cannot be printed, the
    print raises inside the [try]: the last clause takes the exception
    and the client returns the internal-error text instead. *)
Theorem call_gemini_api_no_text (prompt system_instruction : pystr)
    (st : state) (r : response) d c cs ct pt ps :
  API_KEY_truthy W = true ->
  requests_post W (outbound st) (gemini_request W prompt system_instruction)
  = Ret r ->
  error_status (status_code r) = false ->
  json r = Ret (PDict d) ->
  dict_get d (py_lit "candidates") (PList [PDict []]) = PList (PDict c :: cs) ->
  dict_get c (py_lit "content") (PDict []) = PDict ct ->
  dict_get ct (py_lit "parts") (PList [PDict []]) = PList (PDict pt :: ps) ->
  py_truthy (dict_get pt (py_lit "text") PNone) = false ->
  call_gemini_api W prompt system_instruction st
  = if encodable (py_str W (dict_get c (py_lit "finishReason") PNone))
    then
      (Ret (py_lit "回饋失敗：AI 服務暫時無法提供內容。"),
       printed (posted st (gemini_request W prompt system_instruction))
         (py_lit "Gemini API 返回結果結構異常或內容為空。Reason: "
          ++ py_str W (dict_get c (py_lit "finishReason") PNone)))
    else
      (Ret (py_lit "回饋失敗：內部處理錯誤。"),
       printed (posted st (gemini_request W prompt system_instruction))
         (py_lit "處理 AI 回應時發生意外錯誤: "
          ++ exn_str W UnicodeEncodeError)).
Proof.
  intros Hkey Hpost Hstatus Hjson Hcands Hcontent Hparts Htext.
  unfold error_status in Hstatus.
  client_start Hkey. rewrite Hpost, Hstatus. cbn [bind lift ret].
  rewrite Hjson. cbn [py_get]. rewrite Hcands. cbn [py_getitem_idx nth_error py_get].
  rewrite Hcontent. cbn [py_get]. rewrite Hparts.
  cbn [py_getitem_idx nth_error py_get]. rewrite Htext.
  unfold bind, lift, print. cbv beta iota.
  rewrite encodable_app.
  replace (encodable (py_lit "Gemini API 返回結果結構異常或內容為空。Reason: "))
    with true by (vm_compute; reflexivity).
  cbn [andb].
  destruct (encodable (py_str W (dict_get c (py_lit "finishReason") PNone)));
    [reflexivity |].
  cbn [handle is_HTTPError is_RequestException is_Exception].
  rewrite (encodable_exn_line W _ UnicodeEncodeError)
    by (vm_compute; reflexivity).
  reflexivity.
Qed.

(** X6: on a good status, a body that is JSON but not an object, or
    one whose list of candidates is empty, gives the internal-error
    text: the exception raised is not one of requests' own, so the last
    clause takes it. *)
Theorem call_gemini_api_internal_error (prompt system_instruction : pystr)
    (st : state) (r : response) (v : pyval) :
  API_KEY_truthy W = true ->
  requests_post W (outbound st) (gemini_request W prompt system_instruction)
  = Ret r ->
  error_status (status_code r) = false ->
  json r = Ret v ->
  is_dict v = false
  \/ (exists d, v = PDict d
        /\ dict_get d (py_lit "candidates") (PList [PDict []]) = PList []) ->
  exists e,
    is_RequestException e = false
    /\ call_gemini_api W prompt system_instruction st
       = (Ret (py_lit "回饋失敗：內部處理錯誤。"),
          printed (posted st (gemini_request W prompt system_instruction))
            (py_lit "處理 AI 回應時發生意外錯誤: " ++ exn_str W e)).
Proof.
  intros Hkey Hpost Hstatus Hjson Hbad. unfold error_status in Hstatus.
  destruct Hbad as [Hnot | [d [-> Hcands]]].
  - exists AttributeError. split; [reflexivity |].
    client_start Hkey. rewrite Hpost, Hstatus. cbn [bind lift ret].
    rewrite Hjson.
    destruct v; try discriminate;
      cbn [py_get handle is_HTTPError is_RequestException is_Exception];
      unfold bind;
      rewrite print_exn_line by (vm_compute; reflexivity); reflexivity.
  - exists IndexError. split; [reflexivity |].
    client_start Hkey. rewrite Hpost, Hstatus. cbn [bind lift ret].
    rewrite Hjson. cbn [py_get]. rewrite Hcands.
    cbn [py_getitem_idx nth_error handle is_HTTPError is_RequestException
         is_Exception].
    unfold bind.
    rewrite print_exn_line by (vm_compute; reflexivity). reflexivity.
Qed.

End ClientPaths.

(** ** How many calls a statement posts *)

Lemma continues_trans st st1 st2 l1 c1 l2 c2 :
  continues st st1 l1 c1 -> continues st1 st2 l2 c2 ->
  continues st st2 (l1 ++ l2) (c1 ++ c2).
Proof.
  intros [H1 H2] [H3 H4]. split.
  - now rewrite H3, H1, app_assoc.
  - now rewrite H4, H2, app_assoc.
Qed.

Lemma continues_same st : continues st st [] [].
Proof. split; symmetry; apply app_nil_r. Qed.

Lemma pam_same {A} (n : nat) (m : M A) :
  (forall st, snd (m st) = st) -> posts_at_most n m.
Proof.
  intros H st. exists [], []. rewrite H. split; [apply continues_same |].
  cbn. lia.
Qed.

Lemma pam_ret {A} (n : nat) (a : A) : posts_at_most n (ret a).
Proof. now apply pam_same. Qed.

Lemma pam_lift {A} (n : nat) (o : outcome A) : posts_at_most n (lift o).
Proof. now apply pam_same. Qed.

Lemma pam_print (n : nat) (line : pystr) : posts_at_most n (print line).
Proof.
  intros st. unfold print. destruct (encodable line).
  - exists [line], []. split; [| cbn; lia].
    split; cbn; [reflexivity | symmetry; apply app_nil_r].
  - exists [], []. split; [apply continues_same | cbn; lia].
Qed.

Lemma pam_post (W : World) (n : nat) (c : post_call) :
  posts_at_most (S n) (requests_post_call W c).
Proof.
  intros st. exists [], [c]. split; [| cbn; lia].
  split; cbn; [symmetry; apply app_nil_r | reflexivity].
Qed.

Lemma pam_weaken {A} (n n' : nat) (m : M A) :
  (n <= n')%nat -> posts_at_most n m -> posts_at_most n' m.
Proof.
  intros Hle H st. destruct (H st) as [lines [calls [Hc Hlen]]].
  exists lines, calls. split; [exact Hc | lia].
Qed.

Lemma pam_bind {A B} (a b : nat) (m : M A) (k : A -> M B) :
  posts_at_most a m -> (forall x, posts_at_most b (k x)) ->
  posts_at_most (a + b) (bind m k).
Proof.
  intros Hm Hk st. unfold bind.
  destruct (Hm st) as [l1 [c1 [Hc1 Hlen1]]].
  destruct (m st) as [[x | e] st1]; cbn [snd] in *.
  - destruct (Hk x st1) as [l2 [c2 [Hc2 Hlen2]]].
    exists (l1 ++ l2), (c1 ++ c2). split.
    + exact (continues_trans _ _ _ _ _ _ _ Hc1 Hc2).
    + rewrite length_app. lia.
  - exists l1, c1. split; [exact Hc1 | lia].
Qed.

Lemma pam_bind_first {A B} (n : nat) (m : M A) (k : A -> M B) :
  posts_at_most n m -> (forall x, posts_at_most 0 (k x)) ->
  posts_at_most n (bind m k).
Proof.
  intros Hm Hk. apply (pam_weaken (n + 0) n); [lia |].
  now apply pam_bind.
Qed.

Lemma pam_bind_then {A B} (n : nat) (m : M A) (k : A -> M B) :
  posts_at_most 0 m -> (forall x, posts_at_most n (k x)) ->
  posts_at_most n (bind m k).
Proof. intros Hm Hk. now apply (pam_bind 0 n). Qed.

Lemma pam_try {A} (a b : nat) (body : M A) (clauses : list (clause A)) :
  posts_at_most a body -> (forall e, posts_at_most b (handle clauses e)) ->
  posts_at_most (a + b) (try_except body clauses).
Proof.
  intros Hm Hk st. unfold try_except.
  destruct (Hm st) as [l1 [c1 [Hc1 Hlen1]]].
  destruct (body st) as [[x | e] st1]; cbn [snd] in *.
  - exists l1, c1. split; [exact Hc1 | lia].
  - destruct (Hk e st1) as [l2 [c2 [Hc2 Hlen2]]].
    exists (l1 ++ l2), (c1 ++ c2). split.
    + exact (continues_trans _ _ _ _ _ _ _ Hc1 Hc2).
    + rewrite length_app. lia.
Qed.

Lemma pam_try_quiet {A} (n : nat) (body : M A) (clauses : list (clause A)) :
  posts_at_most n body -> (forall e, posts_at_most 0 (handle clauses e)) ->
  posts_at_most n (try_except body clauses).
Proof.
  intros Hm Hk. apply (pam_weaken (n + 0) n); [lia |].
  now apply pam_try.
Qed.

(** Statements that post nothing: lifts, prints and returns in
    sequence, under branches. *)
Ltac quiet :=
  repeat first
    [ apply pam_ret | apply pam_lift | apply pam_print
    | apply pam_bind_then; [| intros ?]
    | match goal with
      | |- posts_at_most _ (if ?b then _ else _) => destruct b
      | |- posts_at_most _ (match ?x with inl _ => _ | inr _ => _ end) =>
          destruct x
      end ].

Section CallCounts.

Variable W : World.

(** The client posts at most one call, and none without a credential. *)
Lemma call_gemini_api_posts (prompt system_instruction : pystr) :
  posts_at_most (if API_KEY_truthy W then 1 else 0)
    (call_gemini_api W prompt system_instruction).
Proof.
  unfold call_gemini_api. destruct (API_KEY_truthy W); cbn [negb].
  - apply pam_try_quiet.
    + apply pam_bind_first; [apply pam_post | intros r].
      unfold raise_for_status. quiet.
    + intros e.
      destruct e; cbn [handle is_HTTPError is_RequestException is_Exception];
        quiet.
  - quiet.
Qed.

End CallCounts.

(** ** The handler as a whole *)

Section HandlerAsAWhole.

Variable W : World.

(** X7: the handler never lets an exception out: every request, parsed
    or not, is answered with a payload [{"feedback": text}] and status
    200 or 500. *)
Theorem get_ai_feedback_always_answers (get_json : outcome pyval) (st : state) :
  exists text code st',
    get_ai_feedback W get_json st
    = (Ret {| body := feedback_payload text; status := code |}, st')
    /\ (code = 200 \/ code = 500).
Proof.
  unfold get_ai_feedback, try_except, jsonify.
  run.
  all: try match goal with
           | H : encodable (?l ++ exn_str ?w ?e) = false |- _ =>
               rewrite (encodable_exn_line w l e) in H
                 by (vm_compute; reflexivity);
               discriminate H
           end.
  all: do 3 eexists; split; [reflexivity |];
    first [left; reflexivity | right; reflexivity].
Qed.

Lemma generate_word_hints_text_posts li miss inc us cw sp :
  posts_at_most ((if API_KEY_truthy W then 1 else 0)
                 + (if API_KEY_truthy W then 1 else 0))
    (generate_word_hints_text W li miss inc us cw sp).
Proof.
  unfold generate_word_hints_text.
  do 5 (apply pam_bind_then; [apply pam_lift | intros ?]).
  apply pam_bind; [apply call_gemini_api_posts | intros ?].
  apply pam_bind_then; [apply pam_lift | intros ?].
  apply pam_bind_first; [apply call_gemini_api_posts | intros ?].
  apply pam_ret.
Qed.

Lemma analyze_user_sentence_text_posts us cw sp :
  posts_at_most (if API_KEY_truthy W then 1 else 0)
    (analyze_user_sentence_text W us cw sp).
Proof.
  unfold analyze_user_sentence_text.
  apply pam_bind_then; [apply pam_lift | intros ?].
  apply pam_bind_first; [apply call_gemini_api_posts | intros ?].
  apply pam_ret.
Qed.

Lemma get_ai_feedback_posts (get_json : outcome pyval) :
  posts_at_most ((if API_KEY_truthy W then 1 else 0)
                 + (if API_KEY_truthy W then 1 else 0))
    (get_ai_feedback W get_json).
Proof.
  unfold get_ai_feedback.
  apply pam_try_quiet;
    [| intros e; cbn [handle is_Exception]; quiet].
  apply pam_bind_then; [apply pam_lift | intros data].
  apply pam_bind_then; [apply pam_lift | intros current_level].
  apply pam_bind_then; [apply pam_lift | intros x1].
  apply pam_bind_then; [apply pam_lift | intros incorrect_words].
  apply pam_bind_then; [apply pam_lift | intros user_sentence_raw].
  apply pam_bind_then; [apply pam_lift | intros x4].
  apply pam_bind_then; [apply pam_lift | intros sentence_prompt_raw].
  apply pam_bind_then; [apply pam_lift | intros sentence_prompt].
  apply pam_bind_then; [apply pam_lift | intros correct_words].
  apply pam_bind_then.
  { apply pam_try_quiet; [quiet |].
    intros e. destruct e; cbn [handle is_FileNotFound_or_JSONDecode]; quiet. }
  intros loaded. destruct loaded as [early | level_info]; [apply pam_ret |].
  apply pam_bind_first; [| intros chosen; destruct chosen; apply pam_ret].
  destruct (negb (py_truthy x1)).
  - destruct (negb (py_truthy (PStr x4))); [apply pam_ret |].
    apply pam_bind_first; [| intros ?; apply pam_ret].
    apply (pam_weaken (if API_KEY_truthy W then 1 else 0)); [lia |].
    apply analyze_user_sentence_text_posts.
  - apply pam_bind_first; [| intros ?; apply pam_ret].
    apply generate_word_hints_text_posts.
Qed.

(** X8: one request posts at most two calls to the model, whatever the
    body, the table and the network; the handler only ever appends to
    the printed lines and to the posted calls. *)
Theorem get_ai_feedback_at_most_two_calls (get_json : outcome pyval) :
  posts_at_most 2 (get_ai_feedback W get_json).
Proof.
  apply (pam_weaken ((if API_KEY_truthy W then 1 else 0)
                     + (if API_KEY_truthy W then 1 else 0))).
  - destruct (API_KEY_truthy W); cbn; lia.
  - apply get_ai_feedback_posts.
Qed.

(** X9: without a credential no request posts any call. *)
Theorem get_ai_feedback_offline (get_json : outcome pyval) :
  API_KEY_truthy W = false ->
  posts_at_most 0 (get_ai_feedback W get_json).
Proof.
  intros Hkey. pose proof (get_ai_feedback_posts get_json) as H.
  now rewrite Hkey in H.
Qed.

(** The catch-all of lines 237-240, run on an exception. *)
Lemma catch_all_run (e : exn) (st : state) :
  handle
    [ (is_Exception,
       fun e =>
         print (py_lit "伺服器發生意外錯誤: " ++ exn_str W e) ;;
         ret {| body := feedback_payload
                          (py_lit "伺服器處理錯誤，請檢查後端控制台。");
                status := 500 |}) ] e st
  = (Ret {| body := feedback_payload
                      (py_lit "伺服器處理錯誤，請檢查後端控制台。");
            status := 500 |},
     printed st (py_lit "伺服器發生意外錯誤: " ++ exn_str W e)).
Proof.
  cbn [handle is_Exception]. unfold bind.
  rewrite print_exn_line by (vm_compute; reflexivity). reflexivity.
Qed.

(** X10: a body the handler cannot parse is answered with the generic
    text and status 500; one line is printed, nothing is posted. *)
Theorem unparsable_body_server_error (get_json : outcome pyval) (st : state) :
  unparsable get_json ->
  exists e,
    get_ai_feedback W get_json st
    = (Ret server_error,
       printed st (py_lit "伺服器發生意外錯誤: " ++ exn_str W e)).
Proof.
  intros Hbad. unfold get_ai_feedback, try_except, server_error.
  destruct get_json as [v | e]; [| exists e; apply catch_all_run].
  destruct v as [| b | z | f | s | l | d];
    try (exists AttributeError; apply catch_all_run).
  cbn [unparsable] in Hbad. cbn [py_get bind lift ret].
  destruct (dict_get d (py_lit "user_sentence") (PStr [])) as [| b | z | f | s | l | d'];
    try (exists AttributeError; apply catch_all_run).
  cbn [is_str andb] in Hbad. cbn [py_strip_method].
  destruct (dict_get d (py_lit "sentence_prompt") (PStr [])) as [| b | z | f | s' | l | d'];
    try (exists AttributeError; apply catch_all_run).
  discriminate.
Qed.

(** X11: when the table cannot be read for another reason than the two
    the handler names, or its entries have another shape than the lookup
    expects, the request ends in the catch-all: status 500. *)
Theorem table_unexpected_server_error d us sp e st :
  sentences d us sp ->
  is_FileNotFound_or_JSONDecode e = false ->
  load_easy_mode_json W = Raise e
  \/ (exists table,
        load_easy_mode_json W = Ret table
        /\ find_level table (req_level d) = Raise e) ->
  get_ai_feedback W (Ret (PDict d)) st
  = (Ret server_error,
     printed st (py_lit "伺服器發生意外錯誤: " ++ exn_str W e)).
Proof.
  intros [Hus Hsp] He Hload.
  unfold get_ai_feedback, try_except, server_error.
  cbn [py_get bind lift ret]. rewrite Hus, Hsp. cbn [py_strip_method].
  destruct Hload as [-> | [table [-> Hfind]]].
  - cbn [handle]. rewrite He. apply catch_all_run.
  - fold (req_level d). rewrite Hfind. cbn [handle]. rewrite He.
    apply catch_all_run.
Qed.

End HandlerAsAWhole.

(** ** Reading the body *)

Lemma pystr_eqb_eq (s t : pystr) : pystr_eqb s t = true <-> s = t.
Proof.
  revert t. induction s as [| c s IH]; intros [| c' t]; cbn;
    try (split; [discriminate | discriminate]); [tauto |].
  rewrite andb_true_iff, N.eqb_eq, IH. split.
  - intros [-> ->]. reflexivity.
  - intros H. injection H as -> ->. tauto.
Qed.

Lemma dict_get_cons_other d key key' v default :
  pystr_eqb key key' = false ->
  dict_get ((key', v) :: d) key default = dict_get d key default.
Proof. intros H. unfold dict_get. cbn [lookup]. now rewrite H. Qed.

Section ReadingTheBody.

Variable W : World.

(** X12: the handler looks at six fields of the body and at nothing
    else: bodies that read alike through them, whatever else they hold
    and in whatever order, get the same answer and leave the same
    state. *)
Theorem get_ai_feedback_same_fields d d' st :
  same_fields d d' ->
  get_ai_feedback W (Ret (PDict d')) st = get_ai_feedback W (Ret (PDict d)) st.
Proof.
  intros H. unfold get_ai_feedback, try_except.
  cbn [py_get bind lift ret].
  rewrite (H (py_lit "level") (PInt 1) (or_introl eq_refl)).
  rewrite (H (py_lit "missing_words") (PList [])
             (or_intror (or_introl eq_refl))).
  rewrite (H (py_lit "incorrect_words") (PList [])
             (or_intror (or_intror (or_introl eq_refl)))).
  rewrite (H (py_lit "user_sentence") (PStr [])
             (or_intror (or_intror (or_intror (or_introl eq_refl))))).
  rewrite (H (py_lit "sentence_prompt") (PStr [])
             (or_intror (or_intror (or_intror (or_intror (or_introl eq_refl)))))).
  rewrite (H (py_lit "correct_words") (PList [])
             (or_intror (or_intror (or_intror (or_intror
                (or_intror (or_introl eq_refl))))))).
  reflexivity.
Qed.

(** X13: a body without [level] is handled as round 1. *)
Theorem level_defaults_to_one d st :
  lookup (py_lit "level") d = None ->
  get_ai_feedback W (Ret (PDict ((py_lit "level", PInt 1) :: d))) st
  = get_ai_feedback W (Ret (PDict d)) st.
Proof.
  intros Hnone. unfold get_ai_feedback, try_except.
  cbn [py_get bind lift ret].
  replace (dict_get ((py_lit "level", PInt 1) :: d) (py_lit "level") (PInt 1))
    with (dict_get d (py_lit "level") (PInt 1)).
  2:{ unfold dict_get. rewrite Hnone. cbn [lookup].
      replace (pystr_eqb (py_lit "level") (py_lit "level")) with true
        by (vm_compute; reflexivity).
      reflexivity. }
  rewrite !dict_get_cons_other by (vm_compute; reflexivity).
  reflexivity.
Qed.

End ReadingTheBody.

(** ** The table lookup, continued *)

(** X14: the lookup returns the first entry whose level equals the
    requested one; the entries after it are not looked at, so whatever
    they hold does no harm. *)
Theorem find_level_first_match before item after lvl v :
  no_matching_entry before lvl ->
  py_getitem_key item (py_lit "level") = Ret v ->
  py_eq v lvl = true ->
  find_level (PList (before ++ item :: after)) lvl = Ret item.
Proof.
  intros Hbefore Hitem Heq. unfold find_level. cbn [py_iter obind].
  induction Hbefore as [| x rest [u [Hu Hne]] _ IH];
    cbn [app first_level_match].
  - rewrite Hitem. cbn [obind]. now rewrite Heq.
  - rewrite Hu. cbn [obind]. now rewrite Hne.
Qed.

(** ** The hint-request lines, continued *)

Lemma enumerate_from_In {A} (l : list A) :
  forall k i (w : A),
    In (i, w) (enumerate_from k l)
    <-> (k <= i)%nat /\ nth_error l (i - k) = Some w.
Proof.
  unfold enumerate_from.
  induction l as [| a l IH]; intros k i w; cbn [List.length seq combine In].
  - split; [tauto |]. intros [_ H]. now destruct (i - k)%nat.
  - rewrite IH. split.
    + intros [H | [Hle H]].
      * injection H as <- <-. split; [lia |].
        now rewrite Nat.sub_diag.
      * split; [lia |].
        replace (i - k)%nat with (S (i - S k)) by lia. exact H.
    + intros [Hle H].
      destruct (Nat.eq_dec i k) as [-> | Hneq].
      * left. rewrite Nat.sub_diag in H. cbn in H. now injection H as ->.
      * right. split; [lia |].
        replace (i - k)%nat with (S (i - S k)) in H by lia. exact H.
Qed.

Lemma hint_request_lines_In (answers tips miss : list pystr) (line : pystr) :
  In line (hint_request_lines answers tips miss)
  <-> exists i w,
        nth_error answers i = Some w /\ In w miss
        /\ line = hint_line tips (i, w).
Proof.
  unfold hint_request_lines, hint_lines_from.
  rewrite in_map_iff. split.
  - intros [[i w] [Hline Hin]].
    apply filter_In in Hin as [Hin Hmiss]. cbn [snd] in Hmiss.
    apply enumerate_from_In in Hin as [_ Hnth].
    rewrite Nat.sub_0_r in Hnth.
    apply existsb_exists in Hmiss as [m [Hm Heq]].
    apply pystr_eqb_eq in Heq. subst m.
    exists i, w. now rewrite Hline.
  - intros [i [w [Hnth [Hmiss ->]]]].
    exists (i, w). split; [reflexivity |].
    apply filter_In. split.
    + apply enumerate_from_In. split; [lia |]. now rewrite Nat.sub_0_r.
    + cbn [snd]. apply existsb_exists. exists w. split; [exact Hmiss |].
      now apply pystr_eqb_eq.
Qed.

(** X15: on lists of strings the loop of [generate_word_hints_text]
    returns, and a line is among those it built exactly when it is the
    line of a word of the round that is in the missing set, with the
    category at the word's index ("物件" past the end).  So a word of
    [missing_words] that the round does not have gets no line, and
    neither does a word of the round that is not missing. *)
Theorem missing_words_loop_lines (W : World) (answers tips miss : list pystr) :
  exists lines,
    missing_words_loop W (str_list miss) (str_list tips) 0
      (map PStr answers) [] = Ret lines
    /\ forall line,
         In line lines
         <-> exists i w,
               nth_error answers i = Some w /\ In w miss
               /\ line = py_lit "單字: " ++ w ++ py_lit " (類別: "
                         ++ nth i tips (py_lit "物件") ++ py_lit ")".
Proof.
  exists (hint_request_lines answers tips miss). split.
  - apply (missing_words_loop_from W miss tips answers 0 []).
  - intros line. rewrite hint_request_lines_In.
    unfold hint_line. cbn [fst snd]. reflexivity.
Qed.

(** ** The two strategies, continued *)

Section StrategiesContinued.

Variable W : World.

(** X16: a request with an empty [missing_words] and a sentence that is
    not blank, whose round is found, and whose call of the client
    returns, is answered with status 200 and a text of two parts
    separated by a blank line: "您造的句子是：" followed by the stripped
    sentence, then what the client returned for the analysis prompt.  The
    round's words and hints and [incorrect_words] play no part. *)
Theorem strategy_B_two_blocks d us sp cw table li st critique st1 :
  sentences d us sp ->
  req_missing_words d = PList [] ->
  py_truthy (PStr (py_strip us)) = true ->
  req_correct_words d = str_list cw ->
  load_easy_mode_json W = Ret table ->
  find_level table (req_level d) = Ret li ->
  py_truthy li = true ->
  call_gemini_api W
    (analysis_prompt_text (py_strip us) (join (py_lit ", ") cw)
       (py_strip sp))
    system_instruction st = (Ret critique, st1) ->
  get_ai_feedback W (Ret (PDict d)) st
  = (Ret {| body := feedback_payload
                      (py_lit "您造的句子是：" ++ py_strip us ++ blank_line
                       ++ critique);
            status := 200 |}, st1).
Proof.
  intros Hs Hmiss Hsentence Hcw Hload Hfind Htruthy H1.
  rewrite (get_ai_feedback_dispatch W d us sp table li st Hs Hload Hfind Htruthy).
  rewrite Hmiss, Hcw. cbn [py_truthy negb].
  unfold strategy_B. rewrite Hsentence. cbn [negb].
  rewrite serve_composer, analyze_user_sentence_text_run, H1.
  reflexivity.
Qed.

(** X17: in Strategy B a [correct_words] that [join] rejects (a
    number, say, or a list holding something else than strings) ends the
    request with status 500 before any call is posted. *)
Theorem strategy_B_bad_correct_words d us sp e table li st :
  sentences d us sp ->
  req_missing_words d = PList [] ->
  py_truthy (PStr (py_strip us)) = true ->
  py_join (py_lit ", ") (req_correct_words d) = Raise e ->
  load_easy_mode_json W = Ret table ->
  find_level table (req_level d) = Ret li ->
  py_truthy li = true ->
  get_ai_feedback W (Ret (PDict d)) st
  = (Ret server_error,
     printed st (py_lit "伺服器發生意外錯誤: " ++ exn_str W e)).
Proof.
  intros Hs Hmiss Hsentence Hcw Hload Hfind Htruthy.
  rewrite (get_ai_feedback_dispatch W d us sp table li st Hs Hload Hfind Htruthy).
  rewrite Hmiss. cbn [py_truthy negb].
  unfold strategy_B. rewrite Hsentence. cbn [negb].
  rewrite serve_composer.
  unfold analyze_user_sentence_text. rewrite Hcw. reflexivity.
Qed.

(** X18: in Strategy A the same failure comes after the hints were
    asked for: when the hint call returns, the answer is status 500, and
    the state is the one the hint call left, with the exception of the
    join printed. *)
Theorem strategy_A_bad_correct_words d us sp m miss inc e table li tips answers
    st hints st1 :
  sentences d us sp ->
  req_missing_words d = str_list (m :: miss) ->
  req_incorrect_words d = str_list inc ->
  py_join (py_lit ", ") (req_correct_words d) = Raise e ->
  load_easy_mode_json W = Ret table ->
  find_level table (req_level d) = Ret li ->
  round_record li tips answers ->
  call_gemini_api W
    (prompt_hints_text (incorrect_text inc)
       (hint_request_lines answers tips (m :: miss)))
    hints_system_instruction st = (Ret hints, st1) ->
  get_ai_feedback W (Ret (PDict d)) st
  = (Ret server_error,
     printed st1 (py_lit "伺服器發生意外錯誤: " ++ exn_str W e)).
Proof.
  intros Hs Hmiss Hinc Hcw Hload Hfind Hround H1.
  pose proof (round_record_truthy _ _ _ _ _ Hfind Hround) as Htruthy.
  destruct Hround as [ld [-> [Htip Hans]]].
  rewrite (get_ai_feedback_dispatch W d us sp table (PDict ld) st Hs Hload
             Hfind Htruthy).
  rewrite Hmiss, Hinc, py_truthy_str_list. cbn [negb].
  unfold strategy_A. rewrite serve_composer.
  unfold generate_word_hints_text.
  cbn [py_get]. rewrite Htip, Hans.
  unfold bind, lift, ret. cbv beta iota.
  change (py_iter (str_list answers)) with (Ret (map PStr answers)).
  cbv beta iota.
  rewrite (missing_words_loop_from W (m :: miss) tips answers 0 []).
  cbn [app]. fold (hint_request_lines answers tips (m :: miss)).
  replace (if py_truthy (str_list inc)
           then py_join (py_lit ", ") (str_list inc)
           else Ret (py_lit "無"))
    with (Ret (incorrect_text inc))
    by (destruct inc; [reflexivity | now rewrite py_join_str_list]).
  cbv beta iota. rewrite H1. cbv beta iota. rewrite Hcw.
  reflexivity.
Qed.

(** X19: with a credential, Strategy A on a round record and lists of
    strings posts the hint request first and, when the hint call
    returned, the critique request after it, whether the critique call
    returns or raises; when the hint call raised, the hint request is the
    only call. *)
Theorem strategy_A_posts_hints_then_critique li tips answers miss inc us cw sp st :
  API_KEY_truthy W = true ->
  round_record li tips answers ->
  outbound
    (snd (generate_word_hints_text W li (str_list miss) (str_list inc) us
            (str_list cw) sp st))
  = outbound st
    ++ gemini_request W
         (prompt_hints_text (incorrect_text inc)
            (hint_request_lines answers tips miss))
         hints_system_instruction
       :: match fst (call_gemini_api W
                       (prompt_hints_text (incorrect_text inc)
                          (hint_request_lines answers tips miss))
                       hints_system_instruction st) with
          | Ret _ =>
              [ gemini_request W
                  (critique_prompt_text us (join (py_lit ", ") cw) sp)
                  critique_system_instruction ]
          | Raise _ => []
          end.
Proof.
  intros Hkey Hround.
  rewrite (generate_word_hints_text_run W li tips answers miss inc us cw sp
             st Hround).
  pose proof (call_gemini_api_outbound W
                (prompt_hints_text (incorrect_text inc)
                   (hint_request_lines answers tips miss))
                hints_system_instruction st Hkey) as O1.
  destruct (call_gemini_api W
              (prompt_hints_text (incorrect_text inc)
                 (hint_request_lines answers tips miss))
              hints_system_instruction st) as [[hints | e] st1];
    cbn [fst snd] in O1 |- *; [| exact O1].
  pose proof (call_gemini_api_outbound W
                (critique_prompt_text us (join (py_lit ", ") cw) sp)
                critique_system_instruction st1 Hkey) as O2.
  destruct (call_gemini_api W
              (critique_prompt_text us (join (py_lit ", ") cw) sp)
              critique_system_instruction st1) as [[critique | e] st2];
    cbn [snd] in O2 |- *; rewrite O2, O1, <- app_assoc; reflexivity.
Qed.

(** X20: with a credential, the sentence analysis of Strategy B posts
    exactly one call, the analysis request built from the sentence, the
    joined words and the sentence pattern, whether the client returns or
    raises. *)
Theorem strategy_B_posts_analysis us cw sp st :
  API_KEY_truthy W = true ->
  outbound (snd (analyze_user_sentence_text W us (str_list cw) sp st))
  = outbound st
    ++ [ gemini_request W
           (analysis_prompt_text us (join (py_lit ", ") cw) sp)
           system_instruction ].
Proof.
  intros Hkey. rewrite analyze_user_sentence_text_run.
  pose proof (call_gemini_api_outbound W
                (analysis_prompt_text us (join (py_lit ", ") cw) sp)
                system_instruction st Hkey) as O1.
  destruct (call_gemini_api W
              (analysis_prompt_text us (join (py_lit ", ") cw) sp)
              system_instruction st) as [[critique | e] st1];
    exact O1.
Qed.

(** X21: when the hint call of Strategy A meets a status from 400 to
    599 with a body text that cannot be printed, the exception that
    leaves the client ends the request in the catch-all: the answer is
    status 500 after the one posted call, and the critique is never asked
    for. *)
Theorem strategy_A_unprintable_error_body d us sp m miss inc table li tips
    answers st r :
  sentences d us sp ->
  req_missing_words d = str_list (m :: miss) ->
  req_incorrect_words d = str_list inc ->
  load_easy_mode_json W = Ret table ->
  find_level table (req_level d) = Ret li ->
  round_record li tips answers ->
  API_KEY_truthy W = true ->
  requests_post W (outbound st)
    (gemini_request W
       (prompt_hints_text (incorrect_text inc)
          (hint_request_lines answers tips (m :: miss)))
       hints_system_instruction) = Ret r ->
  error_status (status_code r) = true ->
  encodable (text r) = false ->
  get_ai_feedback W (Ret (PDict d)) st
  = (Ret server_error,
     printed
       (posted st
          (gemini_request W
             (prompt_hints_text (incorrect_text inc)
                (hint_request_lines answers tips (m :: miss)))
             hints_system_instruction))
       (py_lit "伺服器發生意外錯誤: " ++ exn_str W UnicodeEncodeError)).
Proof.
  intros Hs Hmiss Hinc Hload Hfind Hround Hkey Hpost Hstatus Htext.
  pose proof (round_record_truthy _ _ _ _ _ Hfind Hround) as Htruthy.
  pose proof (call_gemini_api_unprintable_run W _ _ st r Hkey Hpost Hstatus
                Htext) as H1.
  destruct Hround as [ld [-> [Htip Hans]]].
  rewrite (get_ai_feedback_dispatch W d us sp table (PDict ld) st Hs Hload
             Hfind Htruthy).
  rewrite Hmiss, Hinc, py_truthy_str_list. cbn [negb].
  unfold strategy_A. rewrite serve_composer.
  unfold generate_word_hints_text.
  cbn [py_get]. rewrite Htip, Hans.
  unfold bind, lift, ret. cbv beta iota.
  change (py_iter (str_list answers)) with (Ret (map PStr answers)).
  cbv beta iota.
  rewrite (missing_words_loop_from W (m :: miss) tips answers 0 []).
  cbn [app]. fold (hint_request_lines answers tips (m :: miss)).
  replace (if py_truthy (str_list inc)
           then py_join (py_lit ", ") (str_list inc)
           else Ret (py_lit "無"))
    with (Ret (incorrect_text inc))
    by (destruct inc; [reflexivity | now rewrite py_join_str_list]).
  cbv beta iota. rewrite H1. reflexivity.
Qed.

End StrategiesContinued.

(** * The further properties at sample inputs *)


Lemma call_gemini_api_http_error_witness :
  API_KEY_truthy (responding_world overloaded) = true
  /\ requests_post (responding_world overloaded) (outbound st0)
       (gemini_request (responding_world overloaded) (py_lit "hello")
          (py_lit "be kind"))
     = Ret overloaded
  /\ error_status (status_code overloaded) = true
  /\ encodable (text overloaded) = true
  /\ call_gemini_api (responding_world overloaded) (py_lit "hello")
       (py_lit "be kind") st0
     = (Ret (py_lit "回饋失敗：API 服務錯誤 (代碼: "
             ++ decimal (status_code overloaded)
             ++ py_lit ")。請檢查 API Key 是否有效或是否有使用限制。"),
        printed
          (posted st0
             (gemini_request (responding_world overloaded) (py_lit "hello")
                (py_lit "be kind")))
          (py_lit "呼叫 Gemini API 發生 HTTP 錯誤 "
           ++ decimal (status_code overloaded)
           ++ py_lit ": " ++ text overloaded)).
Proof.
  split; [reflexivity |].
  split; [reflexivity |].
  split; [reflexivity |].
  split; [vm_compute; reflexivity |].
  apply (call_gemini_api_http_error (responding_world overloaded)
           (py_lit "hello") (py_lit "be kind") st0 overloaded).
  - reflexivity.
  - reflexivity.
  - reflexivity.
  - vm_compute; reflexivity.
Defined.

Lemma call_gemini_api_connection_error_witness :
  API_KEY_truthy unreachable_world = true
  /\ requests_post unreachable_world (outbound st0)
       (gemini_request unreachable_world (py_lit "hello") (py_lit "be kind"))
     = Raise RequestException
  /\ call_gemini_api unreachable_world (py_lit "hello") (py_lit "be kind") st0
     = (Ret (py_lit "回饋失敗：網路連線錯誤或超時。"),
        printed
          (posted st0
             (gemini_request unreachable_world (py_lit "hello")
                (py_lit "be kind")))
          (py_lit "呼叫 Gemini API 發生連線或超時錯誤: "
           ++ exn_str unreachable_world RequestException)).
Proof.
  split; [reflexivity |].
  split; [reflexivity |].
  apply (call_gemini_api_connection_error unreachable_world (py_lit "hello")
           (py_lit "be kind") st0).
  - reflexivity.
  - left. reflexivity.
Defined.

Lemma call_gemini_api_success_witness :
  API_KEY_truthy (answering_world (py_lit " cold\n")) = true
  /\ json (answer (py_lit " cold\n"))
     = Ret (PDict [(py_lit "candidates",
              PList [PDict [(py_lit "content",
                PDict [(py_lit "parts",
                  PList [PDict [(py_lit "text",
                                 PStr (py_lit " cold\n"))]])])]])])
  /\ py_strip (py_lit " cold\n") = py_lit "cold"
  /\ call_gemini_api (answering_world (py_lit " cold\n")) (py_lit "hello")
       (py_lit "be kind") st0
     = (Ret (py_strip (32%N :: py_lit "cold\n")),
        posted st0
          (gemini_request (answering_world (py_lit " cold\n"))
             (py_lit "hello") (py_lit "be kind"))).
Proof.
  split; [reflexivity |].
  split; [reflexivity |].
  split; [vm_compute; reflexivity |].
  apply (call_gemini_api_success (answering_world (py_lit " cold\n"))
           (py_lit "hello") (py_lit "be kind") st0
           (answer (py_lit " cold\n"))
           [(py_lit "candidates",
             PList [PDict [(py_lit "content",
               PDict [(py_lit "parts",
                 PList [PDict [(py_lit "text",
                                PStr (py_lit " cold\n"))]])])]])]
           [(py_lit "content",
             PDict [(py_lit "parts",
               PList [PDict [(py_lit "text", PStr (py_lit " cold\n"))]])])]
           []
           [(py_lit "parts",
             PList [PDict [(py_lit "text", PStr (py_lit " cold\n"))]])]
           [(py_lit "text", PStr (py_lit " cold\n"))]
           []
           32%N (py_lit "cold\n")).
  - reflexivity.
  - reflexivity.
  - reflexivity.
  - reflexivity.
  - vm_compute; reflexivity.
  - vm_compute; reflexivity.
  - vm_compute; reflexivity.
  - vm_compute; reflexivity.
Defined.

Lemma call_gemini_api_no_text_witness :
  API_KEY_truthy (responding_world blocked) = true
  /\ error_status (status_code blocked) = false
  /\ json blocked
     = Ret (PDict [(py_lit "candidates",
              PList [PDict [(py_lit "finishReason",
                             PStr (py_lit "SAFETY"))]])])
  /\ encodable (py_lit "SAFETY") = true
  /\ call_gemini_api (responding_world blocked) (py_lit "hello")
       (py_lit "be kind") st0
     = (Ret (py_lit "回饋失敗：AI 服務暫時無法提供內容。"),
        printed
          (posted st0
             (gemini_request (responding_world blocked) (py_lit "hello")
                (py_lit "be kind")))
          (py_lit "Gemini API 返回結果結構異常或內容為空。Reason: SAFETY"))
  /\ encodable [55296%N] = false
  /\ call_gemini_api (responding_world blocked_garbled) (py_lit "hello")
       (py_lit "be kind") st0
     = (Ret (py_lit "回饋失敗：內部處理錯誤。"),
        printed
          (posted st0
             (gemini_request (responding_world blocked_garbled)
                (py_lit "hello") (py_lit "be kind")))
          (py_lit "處理 AI 回應時發生意外錯誤: "
           ++ exn_str (responding_world blocked_garbled)
                UnicodeEncodeError)).
Proof.
  split; [reflexivity |].
  split; [reflexivity |].
  split; [reflexivity |].
  split; [vm_compute; reflexivity |].
  split.
  { rewrite (call_gemini_api_no_text (responding_world blocked)
               (py_lit "hello") (py_lit "be kind") st0 blocked
               [(py_lit "candidates",
                 PList [PDict [(py_lit "finishReason",
                                PStr (py_lit "SAFETY"))]])]
               [(py_lit "finishReason", PStr (py_lit "SAFETY"))]
               [] [] [] []).
    - vm_compute; reflexivity.
    - reflexivity.
    - reflexivity.
    - reflexivity.
    - reflexivity.
    - vm_compute; reflexivity.
    - vm_compute; reflexivity.
    - vm_compute; reflexivity.
    - vm_compute; reflexivity. }
  split; [reflexivity |].
  rewrite (call_gemini_api_no_text (responding_world blocked_garbled)
             (py_lit "hello") (py_lit "be kind") st0 blocked_garbled
             [(py_lit "candidates",
               PList [PDict [(py_lit "finishReason", PStr [55296%N])]])]
             [(py_lit "finishReason", PStr [55296%N])]
             [] [] [] []).
  - vm_compute; reflexivity.
  - reflexivity.
  - reflexivity.
  - reflexivity.
  - reflexivity.
  - vm_compute; reflexivity.
  - vm_compute; reflexivity.
  - vm_compute; reflexivity.
  - vm_compute; reflexivity.
Defined.

Lemma call_gemini_api_internal_error_witness :
  API_KEY_truthy (responding_world not_an_object) = true
  /\ error_status (status_code not_an_object) = false
  /\ json not_an_object = Ret (PList [])
  /\ is_dict (PList []) = false
  /\ exists e,
       is_RequestException e = false
       /\ call_gemini_api (responding_world not_an_object) (py_lit "hello")
            (py_lit "be kind") st0
          = (Ret (py_lit "回饋失敗：內部處理錯誤。"),
             printed
               (posted st0
                  (gemini_request (responding_world not_an_object)
                     (py_lit "hello") (py_lit "be kind")))
               (py_lit "處理 AI 回應時發生意外錯誤: "
                ++ exn_str (responding_world not_an_object) e)).
Proof.
  split; [reflexivity |].
  split; [reflexivity |].
  split; [reflexivity |].
  split; [reflexivity |].
  apply (call_gemini_api_internal_error (responding_world not_an_object)
           (py_lit "hello") (py_lit "be kind") st0 not_an_object (PList [])).
  - reflexivity.
  - reflexivity.
  - reflexivity.
  - reflexivity.
  - left. reflexivity.
Defined.

Lemma get_ai_feedback_offline_witness :
  API_KEY_truthy offline_world = false
  /\ posts_at_most 0 (get_ai_feedback offline_world (Ret (PDict one_missing))).
Proof.
  split; [reflexivity |].
  apply (get_ai_feedback_offline offline_world (Ret (PDict one_missing))).
  reflexivity.
Defined.

Lemma unparsable_body_server_error_witness :
  unparsable (Ret (PDict numeric_sentence))
  /\ exists e,
       get_ai_feedback offline_world (Ret (PDict numeric_sentence)) st0
       = (Ret server_error,
          printed st0
            (py_lit "伺服器發生意外錯誤: " ++ exn_str offline_world e)).
Proof.
  split; [vm_compute; reflexivity |].
  apply (unparsable_body_server_error offline_world
           (Ret (PDict numeric_sentence)) st0).
  vm_compute; reflexivity.
Defined.

Lemma table_unexpected_server_error_witness :
  sentences one_missing raw_sentence raw_prompt
  /\ is_FileNotFound_or_JSONDecode OtherException = false
  /\ load_easy_mode_json unreadable_table_world = Raise OtherException
  /\ get_ai_feedback unreadable_table_world (Ret (PDict one_missing)) st0
     = (Ret server_error,
        printed st0
          (py_lit "伺服器發生意外錯誤: "
           ++ exn_str unreadable_table_world OtherException)).
Proof.
  split; [exact one_missing_sentences |].
  split; [reflexivity |].
  split; [reflexivity |].
  apply (table_unexpected_server_error unreadable_table_world one_missing
           raw_sentence raw_prompt OtherException st0 one_missing_sentences).
  - reflexivity.
  - left. reflexivity.
Defined.

Lemma one_missing_tagged_same_fields : same_fields one_missing one_missing_tagged.
Proof.
  intros key default Hin. unfold request_fields in Hin. cbn [In] in Hin.
  destruct Hin as [H | [H | [H | [H | [H | [H | []]]]]]];
    injection H as <- <-; vm_compute; reflexivity.
Qed.

Lemma get_ai_feedback_same_fields_witness :
  same_fields one_missing one_missing_tagged
  /\ get_ai_feedback (answering_world (py_lit "cold"))
       (Ret (PDict one_missing_tagged)) st0
     = get_ai_feedback (answering_world (py_lit "cold"))
         (Ret (PDict one_missing)) st0.
Proof.
  split; [exact one_missing_tagged_same_fields |].
  apply (get_ai_feedback_same_fields (answering_world (py_lit "cold"))
           one_missing one_missing_tagged st0
           one_missing_tagged_same_fields).
Defined.

Lemma level_defaults_to_one_witness :
  lookup (py_lit "level") no_level = None
  /\ get_ai_feedback (answering_world (py_lit "cold"))
       (Ret (PDict ((py_lit "level", PInt 1) :: no_level))) st0
     = get_ai_feedback (answering_world (py_lit "cold"))
         (Ret (PDict no_level)) st0.
Proof.
  split; [vm_compute; reflexivity |].
  apply (level_defaults_to_one (answering_world (py_lit "cold")) no_level st0).
  vm_compute; reflexivity.
Defined.

Lemma sample_round_not_second :
  no_matching_entry [sample_round] (PInt 2).
Proof.
  constructor; [| constructor].
  exists (PInt 1). split; vm_compute; reflexivity.
Qed.

Lemma find_level_first_match_witness :
  no_matching_entry [sample_round] (PInt 2)
  /\ py_getitem_key second_round (py_lit "level") = Ret (PInt 2)
  /\ py_eq (PInt 2) (PInt 2) = true
  /\ find_level (PList ([sample_round] ++ second_round :: [PInt 7; second_round]))
       (PInt 2)
     = Ret second_round.
Proof.
  split; [exact sample_round_not_second |].
  split; [vm_compute; reflexivity |].
  split; [vm_compute; reflexivity |].
  apply (find_level_first_match [sample_round] second_round
           [PInt 7; second_round] (PInt 2) (PInt 2) sample_round_not_second).
  - vm_compute; reflexivity.
  - vm_compute; reflexivity.
Defined.

Lemma all_found_sentences : sentences all_found raw_sentence raw_prompt.
Proof. split; vm_compute; reflexivity. Qed.

Lemma strategy_B_two_blocks_witness :
  sentences all_found raw_sentence raw_prompt
  /\ req_missing_words all_found = PList []
  /\ py_truthy (PStr (py_strip raw_sentence)) = true
  /\ req_correct_words all_found = str_list cat_dog_sun
  /\ find_level sample_table (req_level all_found) = Ret sample_round
  /\ call_gemini_api (answering_world (py_lit "cold")) cat_analysis_prompt
       system_instruction st0
     = (Ret (py_lit "cold"),
        posted st0
          (gemini_request (answering_world (py_lit "cold"))
             cat_analysis_prompt system_instruction))
  /\ get_ai_feedback (answering_world (py_lit "cold"))
       (Ret (PDict all_found)) st0
     = (Ret {| body := feedback_payload
                         (py_lit "您造的句子是：" ++ py_strip raw_sentence
                          ++ blank_line ++ py_lit "cold");
               status := 200 |},
        posted st0
          (gemini_request (answering_world (py_lit "cold"))
             cat_analysis_prompt system_instruction)).
Proof.
  split; [exact all_found_sentences |].
  split; [vm_compute; reflexivity |].
  split; [vm_compute; reflexivity |].
  split; [vm_compute; reflexivity |].
  split; [vm_compute; reflexivity |].
  split; [vm_compute; reflexivity |].
  apply (strategy_B_two_blocks (answering_world (py_lit "cold")) all_found
           raw_sentence raw_prompt cat_dog_sun sample_table sample_round st0
           (py_lit "cold")
           (posted st0
              (gemini_request (answering_world (py_lit "cold"))
                 cat_analysis_prompt system_instruction))
           all_found_sentences).
  - vm_compute; reflexivity.
  - vm_compute; reflexivity.
  - vm_compute; reflexivity.
  - reflexivity.
  - vm_compute; reflexivity.
  - reflexivity.
  - vm_compute; reflexivity.
Defined.

Lemma bad_correct_words_sentences (missing : list pystr) :
  sentences (bad_correct_words missing) raw_sentence [].
Proof. split; vm_compute; reflexivity. Qed.

Lemma strategy_B_bad_correct_words_witness :
  sentences (bad_correct_words []) raw_sentence []
  /\ req_missing_words (bad_correct_words []) = PList []
  /\ py_join (py_lit ", ") (req_correct_words (bad_correct_words []))
     = Raise TypeError
  /\ get_ai_feedback (answering_world (py_lit "cold"))
       (Ret (PDict (bad_correct_words []))) st0
     = (Ret server_error,
        printed st0
          (py_lit "伺服器發生意外錯誤: "
           ++ exn_str (answering_world (py_lit "cold")) TypeError)).
Proof.
  split; [exact (bad_correct_words_sentences []) |].
  split; [vm_compute; reflexivity |].
  split; [vm_compute; reflexivity |].
  apply (strategy_B_bad_correct_words (answering_world (py_lit "cold"))
           (bad_correct_words []) raw_sentence [] TypeError sample_table
           sample_round st0 (bad_correct_words_sentences [])).
  - vm_compute; reflexivity.
  - vm_compute; reflexivity.
  - vm_compute; reflexivity.
  - reflexivity.
  - vm_compute; reflexivity.
  - reflexivity.
Defined.

Lemma strategy_A_bad_correct_words_witness :
  sentences (bad_correct_words [py_lit "dog"]) raw_sentence []
  /\ req_missing_words (bad_correct_words [py_lit "dog"])
     = str_list [py_lit "dog"]
  /\ py_join (py_lit ", ")
       (req_correct_words (bad_correct_words [py_lit "dog"]))
     = Raise TypeError
  /\ call_gemini_api (answering_world (py_lit "cold"))
       (prompt_hints_text (incorrect_text [])
          (hint_request_lines cat_dog_sun sample_tips [py_lit "dog"]))
       hints_system_instruction st0
     = (Ret (py_lit "cold"),
        posted st0
          (gemini_request (answering_world (py_lit "cold"))
             (prompt_hints_text (incorrect_text [])
                (hint_request_lines cat_dog_sun sample_tips [py_lit "dog"]))
             hints_system_instruction))
  /\ get_ai_feedback (answering_world (py_lit "cold"))
       (Ret (PDict (bad_correct_words [py_lit "dog"]))) st0
     = (Ret server_error,
        printed
          (posted st0
             (gemini_request (answering_world (py_lit "cold"))
                (prompt_hints_text (incorrect_text [])
                   (hint_request_lines cat_dog_sun sample_tips
                      [py_lit "dog"]))
                hints_system_instruction))
          (py_lit "伺服器發生意外錯誤: "
           ++ exn_str (answering_world (py_lit "cold")) TypeError)).
Proof.
  split; [exact (bad_correct_words_sentences [py_lit "dog"]) |].
  split; [vm_compute; reflexivity |].
  split; [vm_compute; reflexivity |].
  split; [vm_compute; reflexivity |].
  apply (strategy_A_bad_correct_words (answering_world (py_lit "cold"))
           (bad_correct_words [py_lit "dog"]) raw_sentence [] (py_lit "dog")
           [] [] TypeError sample_table sample_round sample_tips cat_dog_sun
           st0 (py_lit "cold")
           (posted st0
              (gemini_request (answering_world (py_lit "cold"))
                 (prompt_hints_text (incorrect_text [])
                    (hint_request_lines cat_dog_sun sample_tips
                       [py_lit "dog"]))
                 hints_system_instruction))
           (bad_correct_words_sentences [py_lit "dog"])).
  - vm_compute; reflexivity.
  - vm_compute; reflexivity.
  - vm_compute; reflexivity.
  - reflexivity.
  - vm_compute; reflexivity.
  - exact sample_round_record.
  - vm_compute; reflexivity.
Defined.

Lemma strategy_A_posts_hints_then_critique_witness :
  API_KEY_truthy (responding_world garbled) = true
  /\ round_record sample_round sample_tips cat_dog_sun
  /\ fst (call_gemini_api (responding_world garbled) dog_hint_prompt
            hints_system_instruction st0)
     = Raise UnicodeEncodeError
  /\ outbound
       (snd (generate_word_hints_text (responding_world garbled)
               sample_round (str_list [py_lit "dog"])
               (str_list [py_lit "cow"]) (py_strip raw_sentence)
               (str_list cat_dog_sun) (py_strip raw_prompt) st0))
     = outbound st0
       ++ gemini_request (responding_world garbled) dog_hint_prompt
            hints_system_instruction
          :: match fst (call_gemini_api (responding_world garbled)
                          dog_hint_prompt hints_system_instruction st0) with
             | Ret _ =>
                 [ gemini_request (responding_world garbled)
                     dog_critique_prompt critique_system_instruction ]
             | Raise _ => []
             end.
Proof.
  split; [reflexivity |].
  split; [exact sample_round_record |].
  split; [vm_compute; reflexivity |].
  apply (strategy_A_posts_hints_then_critique (responding_world garbled)
           sample_round sample_tips cat_dog_sun [py_lit "dog"]
           [py_lit "cow"] (py_strip raw_sentence) cat_dog_sun
           (py_strip raw_prompt) st0).
  - reflexivity.
  - exact sample_round_record.
Defined.

Lemma strategy_B_posts_analysis_witness :
  API_KEY_truthy (answering_world (py_lit "cold")) = true
  /\ outbound
       (snd (analyze_user_sentence_text (answering_world (py_lit "cold"))
               (py_strip raw_sentence) (str_list cat_dog_sun)
               (py_strip raw_prompt) st0))
     = outbound st0
       ++ [ gemini_request (answering_world (py_lit "cold"))
              (analysis_prompt_text (py_strip raw_sentence)
                 (join (py_lit ", ") cat_dog_sun) (py_strip raw_prompt))
              system_instruction ].
Proof.
  split; [reflexivity |].
  apply (strategy_B_posts_analysis (answering_world (py_lit "cold"))
           (py_strip raw_sentence) cat_dog_sun (py_strip raw_prompt) st0).
  reflexivity.
Defined.

Lemma strategy_A_unprintable_error_body_witness :
  sentences one_missing raw_sentence raw_prompt
  /\ req_missing_words one_missing = str_list [py_lit "dog"]
  /\ round_record sample_round sample_tips cat_dog_sun
  /\ error_status (status_code garbled) = true
  /\ encodable (text garbled) = false
  /\ get_ai_feedback (responding_world garbled) (Ret (PDict one_missing)) st0
     = (Ret server_error,
        printed
          (posted st0
             (gemini_request (responding_world garbled)
                (prompt_hints_text (incorrect_text [py_lit "cow"])
                   (hint_request_lines cat_dog_sun sample_tips
                      [py_lit "dog"]))
                hints_system_instruction))
          (py_lit "伺服器發生意外錯誤: "
           ++ exn_str (responding_world garbled) UnicodeEncodeError)).
Proof.
  split; [exact one_missing_sentences |].
  split; [vm_compute; reflexivity |].
  split; [exact sample_round_record |].
  split; [reflexivity |].
  split; [reflexivity |].
  apply (strategy_A_unprintable_error_body (responding_world garbled)
           one_missing raw_sentence raw_prompt (py_lit "dog") []
           [py_lit "cow"] sample_table sample_round sample_tips cat_dog_sun
           st0 garbled one_missing_sentences).
  - vm_compute; reflexivity.
  - vm_compute; reflexivity.
  - reflexivity.
  - vm_compute; reflexivity.
  - exact sample_round_record.
  - reflexivity.
  - reflexivity.
  - reflexivity.
  - reflexivity.
Defined.

